(** * OpenEnsembles: the clustering facade [clustering_algorithms]

    A shallow embedding of [clustering_algorithms.py].  The Python class holds
    a dataset, a cluster count [K] and a dictionary of options; every
    algorithm method builds a dictionary of defaults, overlays the stored
    options on it, calls scikit-learn and stores the labels and the merged
    dictionary.

    Dictionaries are Python objects: the caller's [kwargs] and every [params]
    built by a method live in a store and the facade holds a reference.  The
    scikit-learn estimators are outside the repository and are modelled by an
    oracle which answers each constructor-and-fit call with labels or with an
    exception. *)

From Stdlib Require Import ZArith String.
From stdpp Require Import base option list sorting gmap sets strings.

Set Warnings "-register-all".

Open Scope string_scope.
Open Scope Z_scope.
Open Scope list_scope.

(** ** Python values stored in option dictionaries *)

(** Float literals are kept as written, [digits * 10 ^ exp10]: the facade
    passes them on and never computes with them. *)
Inductive pyval : Type :=
  | PyNone
  | PyBool (b : bool)
  | PyInt (n : Z)
  | PyFloat (digits exp10 : Z)
  | PyStr (s : string)
  | PyTuple (items : list pyval)
  | PyFunc (qualname : string).

Global Instance pyval_inhabited : Inhabited pyval := populate PyNone.

(** A dataset is a table of rows; [labels_] is one integer per row. *)
Definition dataset := list (list pyval).
Definition labels := list Z.

(** ** The store of dictionary objects *)

Definition loc := positive.
Abbreviation pydict := (gmap string pyval).
Abbreviation store := (gmap loc (gmap string pyval)).

(** ** The external estimators *)

Inductive estimator : Type :=
  | SkKMeans
  | SkSpectralClustering
  | SkAgglomerativeClustering
  | SkDBSCAN.

(** One use of scikit-learn: the estimator built with the keyword arguments
    [ctor_kwargs], then [fit(fit_arg)]. *)
Record ext_call : Type := ExtCall {
  ext_estimator : estimator;
  ctor_kwargs : gmap string pyval;
  fit_arg : dataset
}.

Inductive exn : Type :=
  | KeyError (key : string)
  | ValueError (msg : string)
  | OtherError (cls msg : string).

Inductive fit_result : Type :=
  | FitLabels (ls : labels)
  | FitRaises (e : exn).

(** ** The facade object and the world *)

Record clustering_algorithms : Type := Facade {
  data : dataset;
  out : labels;
  var_params : loc;
  K : Z
}.

(** [calls] is the history of external calls, oldest first. *)
Record world : Type := World {
  hp : store;
  self : clustering_algorithms;
  calls : list ext_call
}.

(** ** A state and exception monad *)

(** [Wrong] has no Python counterpart: it is the dereference of a location
    that the store does not hold. *)
Inductive outcome (A : Type) : Type :=
  | Ok (a : A) (w : world)
  | Raise (e : exn) (w : world)
  | Wrong.
Arguments Ok {A} a w.
Arguments Raise {A} e w.
Arguments Wrong {A}.

Definition M (A : Type) : Type := world → outcome A.

Global Instance M_ret : MRet M := λ A a w, Ok a w.
Global Instance M_bind : MBind M := λ A B f m w,
  match m w with
  | Ok a w' => f a w'
  | Raise e w' => Raise e w'
  | Wrong => Wrong
  end.

Definition raise {A} (e : exn) : M A := λ w, Raise e w.

Definition get_self : M clustering_algorithms := λ w, Ok (self w) w.

Definition set_out (ls : labels) : M unit := λ w,
  Ok tt (World (hp w)
           (Facade (data (self w)) ls (var_params (self w)) (K (self w)))
           (calls w)).

Definition set_var_params (l : loc) : M unit := λ w,
  Ok tt (World (hp w)
           (Facade (data (self w)) (out (self w)) l (K (self w)))
           (calls w)).

(** [{}] *)
Definition new_dict : M loc := λ w,
  let l := fresh (dom (hp w)) in
  Ok l (World (<[l := ∅]> (hp w)) (self w) (calls w)).

(** [d[k] = v] *)
Definition dict_set (l : loc) (k : string) (v : pyval) : M unit := λ w,
  match hp w !! l with
  | Some d => Ok tt (World (<[l := <[k := v]> d]> (hp w)) (self w) (calls w))
  | None => Wrong
  end.

(** [d[k]] *)
Definition dict_get (l : loc) (k : string) : M pyval := λ w,
  match hp w !! l with
  | Some d =>
      match d !! k with
      | Some v => Ok v w
      | None => Raise (KeyError k) w
      end
  | None => Wrong
  end.

(** [set(d.keys())] *)
Definition dict_keys (l : loc) : M (gset string) := λ w,
  match hp w !! l with
  | Some d => Ok (dom d) w
  | None => Wrong
  end.

(** [for x in xs: body x] *)
Fixpoint for_each {A} (xs : list A) (body : A → M unit) : M unit :=
  match xs with
  | [] => mret tt
  | x :: xs' => body x ;; for_each xs' body
  end.

(** The overlay loop, textually the same in the four methods:
[[
    overlap = set(params.keys()) & set(self.var_params.keys())
    for key in overlap:
        params[key] = self.var_params[key]
]]
    The set is walked in the order of [elements]. *)
Definition overlay (params : loc) : M unit :=
  pk ← dict_keys params;
  s ← get_self;
  vk ← dict_keys (var_params s);
  let overlap := pk ∩ vk in
  for_each (elements overlap) (λ key,
    s ← get_self;
    v ← dict_get (var_params s) key;
    dict_set params key v).

Section Methods.

(** The answer of scikit-learn to a call, given the calls made before. *)
Variable fit : list ext_call → ext_call → fit_result.

(** [solution = skc.E(...); solution.fit(self.data); solution.labels_] *)
Definition sk_fit (e : estimator) (kw : gmap string pyval) : M labels := λ w,
  let c := ExtCall e kw (data (self w)) in
  let w' := World (hp w) (self w) (calls w ++ [c]) in
  match fit (calls w) c with
  | FitLabels ls => Ok ls w'
  | FitRaises ex => Raise ex w'
  end.

Definition kmeans : M unit :=
  params ← new_dict;
  dict_set params "init" (PyStr "k-means++") ;;
  dict_set params "n_init" (PyInt 10) ;;
  dict_set params "max_iter" (PyInt 300) ;;
  dict_set params "tol" (PyFloat 1 (-4)) ;;
  dict_set params "precompute_distances" (PyStr "auto") ;;
  dict_set params "verbose" (PyInt 0) ;;
  dict_set params "random_state" PyNone ;;
  dict_set params "copy_x" (PyBool true) ;;
  dict_set params "n_jobs" (PyInt 1) ;;
  overlay params ;;
  s ← get_self;
  a_init ← dict_get params "init";
  a_n_init ← dict_get params "n_init";
  a_max_iter ← dict_get params "max_iter";
  a_tol ← dict_get params "tol";
  a_precompute ← dict_get params "precompute_distances";
  a_verbose ← dict_get params "verbose";
  a_random_state ← dict_get params "random_state";
  a_copy_x ← dict_get params "copy_x";
  a_n_jobs ← dict_get params "n_jobs";
  ls ← sk_fit SkKMeans
         {[ "n_clusters" := PyInt (K s);
            "init" := a_init;
            "n_init" := a_n_init;
            "max_iter" := a_max_iter;
            "tol" := a_tol;
            "precompute_distances" := a_precompute;
            "verbose" := a_verbose;
            "random_state" := a_random_state;
            "copy_x" := a_copy_x;
            "n_jobs" := a_n_jobs ]};
  set_out ls ;;
  set_var_params params.

Definition spectral : M unit :=
  params ← new_dict;
  dict_set params "eigen_solver" PyNone ;;
  dict_set params "random_state" PyNone ;;
  dict_set params "n_init" (PyInt 10) ;;
  dict_set params "gamma" (PyFloat 1 0) ;;
  dict_set params "affinity" (PyStr "rbf") ;;
  dict_set params "n_neighbors" (PyInt 10) ;;
  dict_set params "eigen_tol" (PyStr "0.0") ;;
  dict_set params "assign_labels" (PyStr "kmeans") ;;
  dict_set params "degree" (PyInt 3) ;;
  dict_set params "coef0" (PyInt 1) ;;
  dict_set params "kernel_params" PyNone ;;
  overlay params ;;
  s ← get_self;
  a_n_neighbors ← dict_get params "n_neighbors";
  a_gamma ← dict_get params "gamma";
  a_eigen_solver ← dict_get params "eigen_solver";
  a_random_state ← dict_get params "random_state";
  a_n_init ← dict_get params "n_init";
  a_affinity ← dict_get params "affinity";
  a_coef0 ← dict_get params "coef0";
  a_kernel_params ← dict_get params "kernel_params";
  a_eigen_tol ← dict_get params "eigen_tol";
  a_assign_labels ← dict_get params "assign_labels";
  ls ← sk_fit SkSpectralClustering
         {[ "n_clusters" := PyInt (K s);
            "n_neighbors" := a_n_neighbors;
            "gamma" := a_gamma;
            "eigen_solver" := a_eigen_solver;
            "random_state" := a_random_state;
            "n_init" := a_n_init;
            "affinity" := a_affinity;
            "coef0" := a_coef0;
            "kernel_params" := a_kernel_params;
            "eigen_tol" := a_eigen_tol;
            "assign_labels" := a_assign_labels ]};
  set_out ls ;;
  set_var_params params.

Definition agglomerative : M unit :=
  params ← new_dict;
  dict_set params "affinity" (PyStr "euclidean") ;;
  dict_set params "connectivity" PyNone ;;
  dict_set params "n_components" PyNone ;;
  dict_set params "compute_full_tree" (PyStr "auto") ;;
  dict_set params "linkage" (PyStr "ward") ;;
  dict_set params "pooling_func" (PyFunc "numpy.mean") ;;
  overlay params ;;
  s ← get_self;
  a_affinity ← dict_get params "affinity";
  a_connectivity ← dict_get params "connectivity";
  a_n_components ← dict_get params "n_components";
  a_compute_full_tree ← dict_get params "compute_full_tree";
  a_linkage ← dict_get params "linkage";
  a_pooling_func ← dict_get params "pooling_func";
  ls ← sk_fit SkAgglomerativeClustering
         {[ "n_clusters" := PyInt (K s);
            "affinity" := a_affinity;
            "connectivity" := a_connectivity;
            "n_components" := a_n_components;
            "compute_full_tree" := a_compute_full_tree;
            "linkage" := a_linkage;
            "pooling_func" := a_pooling_func ]};
  set_out ls ;;
  set_var_params params.

(** Lines 166 and 167 end in a comma: [params['leaf_size']=30,] stores the
    one-element tuple [(30,)] and [params['p']=None,] stores [(None,)]. *)
Definition DBSCAN : M unit :=
  params ← new_dict;
  dict_set params "eps" (PyFloat 5 (-1)) ;;
  dict_set params "min_samples" (PyInt 5) ;;
  dict_set params "metric" (PyStr "euclidean") ;;
  dict_set params "algorithm" (PyStr "auto") ;;
  dict_set params "leaf_size" (PyTuple [PyInt 30]) ;;
  dict_set params "p" (PyTuple [PyNone]) ;;
  dict_set params "random_state" PyNone ;;
  overlay params ;;
  a_eps ← dict_get params "eps";
  a_min_samples ← dict_get params "min_samples";
  a_metric ← dict_get params "metric";
  a_algorithm ← dict_get params "algorithm";
  a_leaf_size ← dict_get params "leaf_size";
  a_p ← dict_get params "p";
  a_random_state ← dict_get params "random_state";
  ls ← sk_fit SkDBSCAN
         {[ "eps" := a_eps;
            "min_samples" := a_min_samples;
            "metric" := a_metric;
            "algorithm" := a_algorithm;
            "leaf_size" := a_leaf_size;
            "p" := a_p;
            "random_state" := a_random_state ]};
  set_out ls ;;
  set_var_params params.

End Methods.

(** [__init__(self, data, kwargs, K=2)]: the fields are stored as given and
    [out] starts as the empty list. *)
Definition __init__ (d : dataset) (kwargs : loc) (k : option Z)
  : clustering_algorithms :=
  Facade d [] kwargs (default 2 k).

(** ** Calling a method by its name *)

Inductive algorithm : Type := Kmeans | Spectral | Agglomerative | Dbscan.

Definition method_name (a : algorithm) : string :=
  match a with
  | Kmeans => "kmeans"
  | Spectral => "spectral"
  | Agglomerative => "agglomerative"
  | Dbscan => "DBSCAN"
  end.

Definition invoke (fit : list ext_call → ext_call → fit_result)
    (a : algorithm) : M unit :=
  match a with
  | Kmeans => kmeans fit
  | Spectral => spectral fit
  | Agglomerative => agglomerative fit
  | Dbscan => DBSCAN fit
  end.

(** ** Discovery of the methods *)

(** [methods.remove(x)]: drops the first [x]; [None] when there is none,
    where Python raises [ValueError]. *)
Fixpoint list_remove (x : string) (l : list string) : option (list string) :=
  match l with
  | [] => None
  | y :: l' =>
      if decide (x = y) then Some l' else (y ::.) <$> list_remove x l'
  end.

(** [re.match('__', name)] succeeds when [name] begins with two
    underscores. *)
Definition re_match_dunder (name : string) : bool := String.prefix "__" name.

(** Attributes set by [__init__], and the functions of the class body. *)
Definition instance_attrs : list string := ["data"; "out"; "var_params"; "K"].
Definition class_functions : list string :=
  ["__init__"; "clustering_algorithms_available"; "kmeans"; "spectral";
   "agglomerative"; "DBSCAN"].

Global Instance string_leb_dec (a b : string) :
  Decision (Is_true (String.leb a b)) := _.

Section Discovery.

(** What the interpreter gives every instance ([__class__], [__dict__],
    [__doc__], [__eq__], ...), each name with whether its value is
    callable.  The list depends on the Python version. *)
Variable runtime_attrs : list (string * bool).

(** [dir(self)]: the attribute names, without repetition, sorted. *)
Definition dir_self : list string :=
  merge_sort (λ a b, Is_true (String.leb a b))
    (remove_dups (instance_attrs ++ class_functions ++ runtime_attrs.*1)).

(** [callable(getattr(self, name))]: the instance dictionary is looked up
    first and holds a table, an array of labels, a dictionary and an
    integer; then the class; then what the interpreter provides. *)
Definition callable_attr (name : string) : bool :=
  if decide (name ∈ instance_attrs) then false
  else if decide (name ∈ class_functions) then true
  else match list_find (λ nb, nb.1 = name) runtime_attrs with
       | Some (_, (_, b)) => b
       | None => false
       end.

Definition clustering_algorithms_available : M loc :=
  let methods := filter (λ method, Is_true (callable_attr method)) dir_self in
  match list_remove "clustering_algorithms_available" methods with
  | None => raise (ValueError "list.remove(x): x not in list")
  | Some methods =>
      methodDict ← new_dict;
      for_each methods (λ method,
        if re_match_dunder method then mret tt
        else dict_set methodDict method (PyStr EmptyString)) ;;
      mret methodDict
  end.

End Discovery.

(** ** The tables of defaults, as the methods write them *)

Definition kmeans_defaults : list (string * pyval) :=
  [("init", PyStr "k-means++"); ("n_init", PyInt 10); ("max_iter", PyInt 300);
   ("tol", PyFloat 1 (-4)); ("precompute_distances", PyStr "auto");
   ("verbose", PyInt 0); ("random_state", PyNone); ("copy_x", PyBool true);
   ("n_jobs", PyInt 1)].

Definition spectral_defaults : list (string * pyval) :=
  [("eigen_solver", PyNone); ("random_state", PyNone); ("n_init", PyInt 10);
   ("gamma", PyFloat 1 0); ("affinity", PyStr "rbf"); ("n_neighbors", PyInt 10);
   ("eigen_tol", PyStr "0.0"); ("assign_labels", PyStr "kmeans");
   ("degree", PyInt 3); ("coef0", PyInt 1); ("kernel_params", PyNone)].

Definition agglomerative_defaults : list (string * pyval) :=
  [("affinity", PyStr "euclidean"); ("connectivity", PyNone);
   ("n_components", PyNone); ("compute_full_tree", PyStr "auto");
   ("linkage", PyStr "ward"); ("pooling_func", PyFunc "numpy.mean")].

Definition DBSCAN_defaults : list (string * pyval) :=
  [("eps", PyFloat 5 (-1)); ("min_samples", PyInt 5);
   ("metric", PyStr "euclidean"); ("algorithm", PyStr "auto");
   ("leaf_size", PyTuple [PyInt 30]); ("p", PyTuple [PyNone]);
   ("random_state", PyNone)].

Definition defaults_table (a : algorithm) : list (string * pyval) :=
  match a with
  | Kmeans => kmeans_defaults
  | Spectral => spectral_defaults
  | Agglomerative => agglomerative_defaults
  | Dbscan => DBSCAN_defaults
  end.

Definition defaults_of (a : algorithm) : gmap string pyval :=
  list_to_map (defaults_table a).

(** The recognised option names of an algorithm. *)
Definition recognized (a : algorithm) : gset string := dom (defaults_of a).

(** Defaults with the overlay's value wherever the overlay has the name. *)
Definition overlaid (dflt ov : gmap string pyval) : gmap string pyval :=
  map_imap (λ k v, Some (default v (ov !! k))) dflt.

(** The options dictionary the facade refers to. *)
Definition stored_options (w : world) : option (gmap string pyval) :=
  hp w !! var_params (self w).

(** ** What each method hands to scikit-learn *)

Definition estimator_of (a : algorithm) : estimator :=
  match a with
  | Kmeans => SkKMeans
  | Spectral => SkSpectralClustering
  | Agglomerative => SkAgglomerativeClustering
  | Dbscan => SkDBSCAN
  end.

(** [skc.DBSCAN] has no [n_clusters] parameter. *)
Definition takes_n_clusters (a : algorithm) : bool :=
  match a with Dbscan => false | _ => true end.

(** The option names written as keyword arguments in the constructor call. *)
Definition forwarded (a : algorithm) : list string :=
  match a with
  | Kmeans =>
      ["init"; "n_init"; "max_iter"; "tol"; "precompute_distances"; "verbose";
       "random_state"; "copy_x"; "n_jobs"]
  | Spectral =>
      ["n_neighbors"; "gamma"; "eigen_solver"; "random_state"; "n_init";
       "affinity"; "coef0"; "kernel_params"; "eigen_tol"; "assign_labels"]
  | Agglomerative =>
      ["affinity"; "connectivity"; "n_components"; "compute_full_tree";
       "linkage"; "pooling_func"]
  | Dbscan =>
      ["eps"; "min_samples"; "metric"; "algorithm"; "leaf_size"; "p";
       "random_state"]
  end.

(** ** The closed form of an invocation *)

(** What the keyword arguments [kw] of the constructor call of method [a]
    are, for cluster count [k] and merged options [p]. *)
Record sent (a : algorithm) (k : Z) (p kw : gmap string pyval) : Prop := {
  sent_n_clusters :
    kw !! "n_clusters" = if takes_n_clusters a then Some (PyInt k) else None;
  sent_forwarded : ∀ name, name ∈ forwarded a → kw !! name = p !! name;
  sent_only :
    ∀ name, is_Some (kw !! name) → name = "n_clusters" ∨ name ∈ forwarded a
}.

(** The outcome of method [a] in world [w] whose stored options are [ov],
    when the constructor call carries [kw]. *)
Definition invoked (fit : list ext_call → ext_call → fit_result)
    (a : algorithm) (w : world) (ov kw : gmap string pyval) : outcome unit :=
  let l := fresh (dom (hp w)) in
  let h' := <[l := overlaid (defaults_of a) ov]> (hp w) in
  let call := ExtCall (estimator_of a) kw (data (self w)) in
  match fit (calls w) call with
  | FitLabels ls =>
      Ok tt (World h' (Facade (data (self w)) ls l (K (self w)))
               (calls w ++ [call]))
  | FitRaises e => Raise e (World h' (self w) (calls w ++ [call]))
  end.

(** The dictionary the discovery loop builds from the list [ms]. *)
Definition listed (ms : list string) : gmap string pyval :=
  foldl (λ q name, if re_match_dunder name then q else <[name := PyStr EmptyString]> q)
        ∅ ms.

(** A facade whose options field refers to a dictionary of the store. *)
Definition well_formed (w : world) : Prop := is_Some (stored_options w).

(** The world right after [clustering_algorithms(d, kwargs, k)], in a store
    [h] and after the external calls [c] of earlier facades. *)
Definition constructed (h : store) (d : dataset) (kwargs : loc)
    (k : option Z) (c : list ext_call) : world :=
  World h (__init__ d kwargs k) c.

(** ** Sequences of operations on one facade *)

Inductive operation : Type :=
  | Invoke (a : algorithm)
  | Discover.

(** The world after an operation; a caller who catches an exception goes on
    with the world as the exception left it. *)
Definition after {A} (o : outcome A) (w : world) : world :=
  match o with
  | Ok _ w' => w'
  | Raise _ w' => w'
  | Wrong => w
  end.

Definition step (fit : list ext_call → ext_call → fit_result)
    (rt : list (string * bool)) (o : operation) (w : world) : world :=
  match o with
  | Invoke a => after (invoke fit a w) w
  | Discover => after (clustering_algorithms_available rt w) w
  end.

Definition run (fit : list ext_call → ext_call → fit_result)
    (rt : list (string * bool)) (ops : list operation) (w : world) : world :=
  foldl (λ w o, step fit rt o w) w ops.

(** The estimators a sequence of operations calls, in order. *)
Definition estimators_called (ops : list operation) : list estimator :=
  omap (λ o, match o with
             | Invoke a => Some (estimator_of a)
             | Discover => None
             end) ops.

(** ** Concrete collaborators used in examples *)

(** An estimator that puts every row in cluster 0. *)
Definition fit_zero : list ext_call → ext_call → fit_result :=
  λ _ c, FitLabels (map (λ _, 0) (fit_arg c)).

(** An estimator that rejects every call. *)
Definition fit_fail : list ext_call → ext_call → fit_result :=
  λ _ _, FitRaises (ValueError "bad input shape").

(** k-means puts every row in cluster 0; every other estimator rejects its
    call. *)
Definition fit_kmeans_only : list ext_call → ext_call → fit_result :=
  λ _ c, match ext_estimator c with
         | SkKMeans => FitLabels (map (λ _, 0) (fit_arg c))
         | _ => FitRaises (ValueError "bad input shape")
         end.

(** The attributes of a plain Python 3 instance. *)
Definition py3_runtime_attrs : list (string * bool) :=
  [("__class__", true); ("__delattr__", true); ("__dict__", false);
   ("__dir__", true); ("__doc__", false); ("__eq__", true);
   ("__format__", true); ("__ge__", true); ("__getattribute__", true);
   ("__gt__", true); ("__hash__", true); ("__init__", true);
   ("__init_subclass__", true); ("__le__", true); ("__lt__", true);
   ("__module__", false); ("__ne__", true); ("__new__", true);
   ("__reduce__", true); ("__reduce_ex__", true); ("__repr__", true);
   ("__setattr__", true); ("__sizeof__", true); ("__str__", true);
   ("__subclasshook__", true); ("__weakref__", false)].

Definition example_table : dataset :=
  [[PyInt 1; PyInt 2]; [PyInt 3; PyInt 4]; [PyInt 5; PyInt 6]].

Definition example_overlay : gmap string pyval :=
  {[ "max_iter" := PyInt 50; "eps" := PyFloat 1 (-1) ]}.

(** An overlay with two names that [DBSCAN] recognises. *)
Definition example_dbscan_overlay : gmap string pyval :=
  {[ "eps" := PyFloat 1 (-1); "min_samples" := PyInt 2 ]}.

(** A store whose only dictionary is the caller's, at location 1. *)
Definition example_store (ov : gmap string pyval) : store :=
  {[ 1%positive := ov ]}.

Definition example_world (ov : gmap string pyval) : world :=
  constructed (example_store ov) example_table 1%positive None [].

(** * Properties *)

(** ** The overlay as a pure function *)

Lemma overlaid_lookup (dflt ov : gmap string pyval) (k : string) :
  overlaid dflt ov !! k = (λ v, default v (ov !! k)) <$> dflt !! k.
Proof.
  unfold overlaid. rewrite map_lookup_imap.
  destruct (dflt !! k); reflexivity.
Qed.

Lemma overlaid_dom (dflt ov : gmap string pyval) :
  dom (overlaid dflt ov) = dom dflt.
Proof.
  apply set_eq. intros k. rewrite !elem_of_dom, overlaid_lookup.
  rewrite fmap_is_Some. reflexivity.
Qed.

Lemma overlaid_empty (dflt : gmap string pyval) : overlaid dflt ∅ = dflt.
Proof.
  apply map_eq. intros k. rewrite overlaid_lookup.
  destruct (dflt !! k); simpl; [rewrite lookup_empty|]; reflexivity.
Qed.

(** ** Stepping through the monad *)

Lemma bind_unfold {A B} (m : M A) (f : A → M B) (w : world) :
  (m ≫= f) w =
    match m w with
    | Ok a w' => f a w'
    | Raise e w' => Raise e w'
    | Wrong => Wrong
    end.
Proof. reflexivity. Qed.

Lemma dict_set_at h s c l (d : gmap string pyval) k v :
  dict_set l k v (World (<[l := d]> h) s c)
  = Ok tt (World (<[l := <[k := v]> d]> h) s c).
Proof.
  unfold dict_set. simpl. rewrite lookup_insert_eq, insert_insert_eq.
  reflexivity.
Qed.

Lemma dict_get_at h s c l (d : gmap string pyval) k v :
  d !! k = Some v →
  dict_get l k (World (<[l := d]> h) s c) = Ok v (World (<[l := d]> h) s c).
Proof.
  intros Hk. unfold dict_get. simpl. rewrite lookup_insert_eq, Hk.
  reflexivity.
Qed.

Lemma dict_get_overlaid h s c l (dflt ov : gmap string pyval) k v :
  dflt !! k = Some v →
  dict_get l k (World (<[l := overlaid dflt ov]> h) s c)
  = Ok (default v (ov !! k)) (World (<[l := overlaid dflt ov]> h) s c).
Proof.
  intros Hk. apply dict_get_at. rewrite overlaid_lookup, Hk. reflexivity.
Qed.

(** The loop body run over keys that the overlay holds. *)
Lemma for_each_overlay h s c l (ov : gmap string pyval) (ks : list string) :
  l ≠ var_params s →
  h !! var_params s = Some ov →
  Forall (λ k, is_Some (ov !! k)) ks →
  ∀ p : gmap string pyval,
    for_each ks (λ key,
      s' ← get_self;
      v ← dict_get (var_params s') key;
      dict_set l key v) (World (<[l := p]> h) s c)
    = Ok tt (World (<[l := foldl (λ q k, <[k := ov !!! k]> q) p ks]> h) s c).
Proof.
  intros Hne Hov Hks. induction Hks as [|k ks [v Hv] _ IH]; intros p.
  - reflexivity.
  - simpl for_each. rewrite bind_unfold. rewrite bind_unfold.
    unfold get_self at 1. cbv beta iota. rewrite bind_unfold.
    unfold dict_get at 1. simpl hp. simpl self.
    rewrite lookup_insert_ne by exact Hne. rewrite Hov, Hv.
    rewrite dict_set_at. rewrite IH. simpl foldl.
    rewrite (lookup_total_correct _ _ _ Hv). reflexivity.
Qed.

Lemma foldl_insert_lookup (ov : gmap string pyval) (ks : list string) :
  ∀ (p : gmap string pyval) (k : string),
    foldl (λ q k', <[k' := ov !!! k']> q) p ks !! k
    = if decide (k ∈ ks) then Some (ov !!! k) else p !! k.
Proof.
  induction ks as [|k0 ks IH]; intros p k; cbn [foldl].
  - rewrite decide_False by apply not_elem_of_nil. reflexivity.
  - rewrite IH. destruct (decide (k ∈ ks)) as [Hin|Hnin].
    + rewrite decide_True by (right; exact Hin). reflexivity.
    + destruct (decide (k = k0)) as [->|Hk].
      * rewrite decide_True by left. rewrite lookup_insert_eq. reflexivity.
      * rewrite decide_False.
        -- rewrite lookup_insert_ne by congruence. reflexivity.
        -- intros [?|?]%elem_of_cons; contradiction.
Qed.

Lemma overlay_at h s c l (dflt ov : gmap string pyval) :
  h !! l = None →
  h !! var_params s = Some ov →
  overlay l (World (<[l := dflt]> h) s c)
  = Ok tt (World (<[l := overlaid dflt ov]> h) s c).
Proof.
  intros Hl Hov.
  assert (l ≠ var_params s) as Hne by congruence.
  unfold overlay. rewrite bind_unfold. unfold dict_keys at 1. simpl hp.
  rewrite lookup_insert_eq. rewrite bind_unfold. unfold get_self at 1.
  cbv beta iota. rewrite bind_unfold. unfold dict_keys at 1. simpl hp.
  simpl self. rewrite lookup_insert_ne by exact Hne. rewrite Hov.
  cbv beta iota zeta.
  rewrite (for_each_overlay h s c l ov _ Hne Hov).
  - do 3 f_equal. apply map_eq. intros k.
    rewrite foldl_insert_lookup, overlaid_lookup.
    destruct (decide (k ∈ elements (dom dflt ∩ dom ov))) as [Hin|Hnin].
    + apply elem_of_elements, elem_of_intersection in Hin as [Hd Ho].
      apply elem_of_dom in Hd as [v0 Hv0]. apply elem_of_dom in Ho as [v Hv].
      rewrite Hv0, Hv. rewrite (lookup_total_correct _ _ _ Hv). reflexivity.
    + destruct (dflt !! k) as [v0|] eqn:Hv0; [|reflexivity].
      destruct (ov !! k) as [v|] eqn:Hv; [|reflexivity].
      exfalso. apply Hnin, elem_of_elements, elem_of_intersection.
      split; apply elem_of_dom; eauto.
  - apply Forall_forall. intros k Hin.
    apply elem_of_elements, elem_of_intersection in Hin as [_ Ho].
    apply elem_of_dom. exact Ho.
Qed.

(** ** The four methods in closed form *)

Ltac step_set := rewrite bind_unfold, dict_set_at; cbv beta iota.
Ltac step_get :=
  rewrite bind_unfold; erewrite dict_get_overlaid by reflexivity;
  cbv beta iota.
Ltac step_self :=
  rewrite bind_unfold; unfold get_self at 1; cbv beta iota.

(** The constructor call is the one the method has just built; both answers
    of the oracle are followed to the end of the method. *)
Ltac finish_call c :=
  rewrite bind_unfold; unfold sk_fit at 1; cbn [hp self calls];
  cbv beta iota zeta;
  match goal with
  | |- context [ExtCall _ ?kw _] =>
      tryif is_evar kw then fail else instantiate (1 := kw)
  end;
  match goal with |- context [?fit c ?call] => destruct (fit c call) end;
  reflexivity.

(** A method from its first statement to its last, for stored options
    [ov]. *)
Ltac run_method Hl Hov ov c :=
  cbn [hp self calls estimator_of];
  rewrite bind_unfold; unfold new_dict at 1; cbn [hp self calls];
  cbv beta iota zeta; repeat step_set;
  rewrite bind_unfold, (overlay_at _ _ _ _ _ ov Hl Hov); cbv beta iota;
  try step_self; repeat step_get;
  finish_call c.

(** The keyword arguments found by [run_method] are the ones [sent]
    describes. *)
Ltac check_sent :=
  split;
  [ reflexivity
  | let name := fresh "name" in
    let Hn := fresh "Hn" in
    intros name Hn; cbn [forwarded] in Hn;
    repeat (apply elem_of_cons in Hn as [->|Hn]);
    [rewrite overlaid_lookup; vm_compute; reflexivity ..|];
    apply elem_of_nil in Hn as []
  | let name := fresh "name" in
    let Hn := fresh "Hn" in
    intros name Hn; apply elem_of_dom in Hn;
    rewrite !dom_insert_L, dom_singleton_L in Hn;
    rewrite !elem_of_union, !elem_of_singleton in Hn;
    cbn [forwarded];
    repeat (destruct Hn as [Hn|Hn]); subst name;
    first [left; reflexivity | right; repeat constructor] ].

Section Closed_form.

Variable fit : list ext_call → ext_call → fit_result.

Lemma fresh_unused (h : store) : h !! fresh (dom h) = None.
Proof. apply not_elem_of_dom, is_fresh. Qed.

Lemma kmeans_closed w ov :
  stored_options w = Some ov →
  ∃ kw, sent Kmeans (K (self w)) (overlaid (defaults_of Kmeans) ov) kw
        ∧ kmeans fit w = invoked fit Kmeans w ov kw.
Proof.
  destruct w as [h s c]. unfold stored_options. cbn [hp self]. intros Hov.
  pose proof (fresh_unused h) as Hl.
  eexists. split; last first.
  - unfold kmeans, invoked. run_method Hl Hov ov c.
  - check_sent.
Qed.

Lemma spectral_closed w ov :
  stored_options w = Some ov →
  ∃ kw, sent Spectral (K (self w)) (overlaid (defaults_of Spectral) ov) kw
        ∧ spectral fit w = invoked fit Spectral w ov kw.
Proof.
  destruct w as [h s c]. unfold stored_options. cbn [hp self]. intros Hov.
  pose proof (fresh_unused h) as Hl.
  eexists. split; last first.
  - unfold spectral, invoked. run_method Hl Hov ov c.
  - check_sent.
Qed.

Lemma agglomerative_closed w ov :
  stored_options w = Some ov →
  ∃ kw, sent Agglomerative (K (self w))
          (overlaid (defaults_of Agglomerative) ov) kw
        ∧ agglomerative fit w = invoked fit Agglomerative w ov kw.
Proof.
  destruct w as [h s c]. unfold stored_options. cbn [hp self]. intros Hov.
  pose proof (fresh_unused h) as Hl.
  eexists. split; last first.
  - unfold agglomerative, invoked. run_method Hl Hov ov c.
  - check_sent.
Qed.

Lemma DBSCAN_closed w ov :
  stored_options w = Some ov →
  ∃ kw, sent Dbscan (K (self w)) (overlaid (defaults_of Dbscan) ov) kw
        ∧ DBSCAN fit w = invoked fit Dbscan w ov kw.
Proof.
  destruct w as [h s c]. unfold stored_options. cbn [hp self]. intros Hov.
  pose proof (fresh_unused h) as Hl.
  eexists. split; last first.
  - unfold DBSCAN, invoked. run_method Hl Hov ov c.
  - check_sent.
Qed.

Lemma invoke_closed a w ov :
  stored_options w = Some ov →
  ∃ kw, sent a (K (self w)) (overlaid (defaults_of a) ov) kw
        ∧ invoke fit a w = invoked fit a w ov kw.
Proof.
  destruct a; cbn [invoke];
    auto using kmeans_closed, spectral_closed, agglomerative_closed,
               DBSCAN_closed.
Qed.

End Closed_form.

(** ** Discovery in closed form *)

Lemma for_each_listing h s c l (ms : list string) :
  ∀ q : gmap string pyval,
    for_each ms (λ method,
      if re_match_dunder method then mret tt
      else dict_set l method (PyStr EmptyString)) (World (<[l := q]> h) s c)
    = Ok tt (World
        (<[l := foldl (λ q name, if re_match_dunder name then q
                                 else <[name := PyStr EmptyString]> q) q ms]> h) s c).
Proof.
  induction ms as [|m ms IH]; intros q.
  - reflexivity.
  - cbn [for_each foldl]. rewrite bind_unfold.
    destruct (re_match_dunder m).
    + cbv beta iota. apply IH.
    + rewrite dict_set_at. apply IH.
Qed.

Lemma available_closed rt w :
  clustering_algorithms_available rt w =
    match list_remove "clustering_algorithms_available"
            (filter (λ method, Is_true (callable_attr rt method))
                    (dir_self rt)) with
    | None => Raise (ValueError "list.remove(x): x not in list") w
    | Some ms =>
        let l := fresh (dom (hp w)) in
        Ok l (World (<[l := listed ms]> (hp w)) (self w) (calls w))
    end.
Proof.
  unfold clustering_algorithms_available.
  destruct (list_remove _ _) as [ms|]; [|reflexivity].
  destruct w as [h s c]. rewrite bind_unfold. unfold new_dict at 1.
  cbn [hp self calls]. cbv beta iota zeta.
  rewrite bind_unfold, for_each_listing. reflexivity.
Qed.

(** ** What one operation leaves in place *)

Section Frame.

Variable fit : list ext_call → ext_call → fit_result.
Variable rt : list (string * bool).

Lemma invoke_frame a w :
  well_formed w →
  let w1 := after (invoke fit a w) w in
  data (self w1) = data (self w) ∧ K (self w1) = K (self w)
  ∧ hp w ⊆ hp w1 ∧ well_formed w1.
Proof.
  intros [ov Hov]. destruct (invoke_closed fit a w ov Hov) as (kw & _ & ->).
  pose proof (fresh_unused (hp w)) as Hl.
  unfold invoked, well_formed, stored_options in *.
  destruct (fit _ _); cbn [after hp self data K var_params];
    (split; [reflexivity|]); (split; [reflexivity|]);
    (split; [apply insert_subseteq, Hl|]).
  - rewrite lookup_insert_eq. eauto.
  - rewrite lookup_insert_ne by congruence. eauto.
Qed.

Lemma discover_frame w :
  let w1 := after (clustering_algorithms_available rt w) w in
  self w1 = self w ∧ calls w1 = calls w ∧ hp w ⊆ hp w1.
Proof.
  rewrite available_closed. destruct (list_remove _ _); cbn [after].
  - cbn [self calls hp]. split; [reflexivity|]. split; [reflexivity|].
    apply insert_subseteq, fresh_unused.
  - split; [reflexivity|]. split; reflexivity.
Qed.

Lemma step_frame o w :
  well_formed w →
  data (self (step fit rt o w)) = data (self w)
  ∧ K (self (step fit rt o w)) = K (self w)
  ∧ hp w ⊆ hp (step fit rt o w)
  ∧ well_formed (step fit rt o w).
Proof.
  intros Hw. destruct o as [a|]; cbn [step].
  - apply invoke_frame, Hw.
  - destruct (discover_frame w) as (Hs & _ & Hh).
    rewrite Hs. repeat split; try exact Hh.
    destruct Hw as [ov Hov]. exists ov. unfold stored_options in *.
    rewrite Hs. eapply lookup_weaken; eassumption.
Qed.

Lemma run_frame ops : ∀ w,
  well_formed w →
  data (self (run fit rt ops w)) = data (self w)
  ∧ K (self (run fit rt ops w)) = K (self w)
  ∧ hp w ⊆ hp (run fit rt ops w)
  ∧ well_formed (run fit rt ops w).
Proof.
  induction ops as [|o ops IH]; intros w Hw.
  - cbn. repeat split; [reflexivity | exact Hw].
  - cbn [run foldl]. destruct (step_frame o w Hw) as (Hd & Hk & Hh & Hw1).
    destruct (IH _ Hw1) as (Hd' & Hk' & Hh' & Hw').
    unfold run in *. rewrite Hd', Hk', Hd, Hk.
    repeat split; [etrans; eassumption | exact Hw'].
Qed.

End Frame.

(** ** The two ways an invocation ends *)

Section Invocation.

Variable fit : list ext_call → ext_call → fit_result.

(** On a well-formed facade a method either stores the labels and the
    merged options in a dictionary of its own, or hands on the exception of
    scikit-learn with the fields as they were; [KeyError] never arises. *)
Lemma invoke_result a w ov :
  stored_options w = Some ov →
  ∃ kw,
    let l := fresh (dom (hp w)) in
    let eff := overlaid (defaults_of a) ov in
    let call := ExtCall (estimator_of a) kw (data (self w)) in
    sent a (K (self w)) eff kw ∧ hp w !! l = None ∧
    match invoke fit a w with
    | Ok _ w1 =>
        ∃ ls, fit (calls w) call = FitLabels ls
          ∧ w1 = World (<[l := eff]> (hp w))
                       (Facade (data (self w)) ls l (K (self w)))
                       (calls w ++ [call])
    | Raise e w1 =>
        fit (calls w) call = FitRaises e
        ∧ w1 = World (<[l := eff]> (hp w)) (self w) (calls w ++ [call])
    | Wrong => False
    end.
Proof.
  intros Hov. destruct (invoke_closed fit a w ov Hov) as (kw & Hs & ->).
  exists kw. cbv zeta. split; [exact Hs|]. split; [apply fresh_unused|].
  unfold invoked. destruct (fit _ _) as [ls|e]; eauto.
Qed.

Lemma overlaid_idemp (dflt ov : gmap string pyval) :
  overlaid dflt (overlaid dflt ov) = overlaid dflt ov.
Proof.
  apply map_eq. intros name. rewrite !overlaid_lookup.
  destruct (dflt !! name); reflexivity.
Qed.

Lemma recognized_forwarded a name :
  name ∈ recognized a → (a = Spectral → name ≠ "degree") →
  name ∈ forwarded a.
Proof.
  unfold recognized, defaults_of. intros [v Hv]%elem_of_dom Hdeg.
  apply elem_of_list_to_map_2 in Hv.
  destruct a; cbn [defaults_table kmeans_defaults spectral_defaults
                   agglomerative_defaults DBSCAN_defaults forwarded] in *;
    repeat (apply elem_of_cons in Hv as [[= -> _]|Hv]);
    try (apply elem_of_nil in Hv as []);
    try (exfalso; apply Hdeg; reflexivity);
    repeat constructor.
Qed.

End Invocation.

(** ** What discovery lists *)

Lemma list_remove_spec (x : string) (l : list string) :
  NoDup l → x ∈ l →
  ∃ l', list_remove x l = Some l' ∧ ∀ y, y ∈ l' ↔ y ∈ l ∧ y ≠ x.
Proof.
  induction 1 as [|z l Hz Hnd IH]; intros Hx.
  - apply elem_of_nil in Hx as [].
  - cbn [list_remove]. destruct (decide (x = z)) as [->|Hne].
    + exists l. split; [reflexivity|]. intros y. rewrite elem_of_cons.
      split.
      * intros Hy. split; [right; exact Hy|]. intros ->. contradiction.
      * intros [[->|Hy] Hyz]; [contradiction|exact Hy].
    + apply elem_of_cons in Hx as [->|Hx]; [contradiction|].
      destruct (IH Hx) as (l' & -> & Hl'). exists (z :: l').
      split; [reflexivity|]. intros y. rewrite !elem_of_cons, Hl'.
      split.
      * intros [->|[Hy Hyx]]; split; auto.
      * intros [[->|Hy] Hyx]; auto.
Qed.

Lemma listing_lookup (ms : list string) (name : string) :
  ∀ q : gmap string pyval,
    foldl (λ q name, if re_match_dunder name then q
                     else <[name := PyStr EmptyString]> q) q ms !! name
    = if decide (name ∈ ms ∧ re_match_dunder name = false)
      then Some (PyStr EmptyString) else q !! name.
Proof.
  induction ms as [|m ms IH]; intros q; cbn [foldl].
  - rewrite decide_False; [reflexivity|].
    intros [[]%elem_of_nil _].
  - rewrite IH. destruct (decide (name ∈ ms ∧ _)) as [[Hin Hd]|Hn].
    + rewrite decide_True; [reflexivity|]. split; [right; exact Hin|exact Hd].
    + destruct (decide (name = m ∧ re_match_dunder name = false))
        as [[-> Hd]|Hn'].
      * rewrite decide_True by (split; [left|exact Hd]).
        rewrite Hd, lookup_insert_eq. reflexivity.
      * rewrite decide_False.
        -- destruct (re_match_dunder m) eqn:Hm; [reflexivity|].
           rewrite lookup_insert_ne; [reflexivity|].
           intros ->. apply Hn'. split; [reflexivity|exact Hm].
        -- intros [[->|Hin]%elem_of_cons Hd]; [apply Hn'|apply Hn]; auto.
Qed.

Section Discovered.

Variable rt : list (string * bool).

Lemma dir_self_elem name :
  name ∈ dir_self rt
  ↔ name ∈ instance_attrs ∨ name ∈ class_functions ∨ name ∈ rt.*1.
Proof.
  unfold dir_self. rewrite merge_sort_Permutation, elem_of_remove_dups.
  rewrite !elem_of_app. reflexivity.
Qed.

Lemma dir_self_NoDup : NoDup (dir_self rt).
Proof.
  unfold dir_self. rewrite merge_sort_Permutation. apply NoDup_remove_dups.
Qed.

Hypothesis rt_dunder : Forall (λ nb, re_match_dunder nb.1 = true) rt.

Lemma runtime_name_dunder name :
  name ∈ rt.*1 → re_match_dunder name = true.
Proof.
  intros [nb [-> Hnb]]%list_elem_of_fmap.
  rewrite Forall_forall in rt_dunder. apply rt_dunder, Hnb.
Qed.

(** The callable attributes that do not begin with two underscores are the
    five functions of the class body. *)
Lemma plain_methods name :
  re_match_dunder name = false →
  (name ∈ filter (λ method, Is_true (callable_attr rt method)) (dir_self rt)
   ↔ name ∈ ["clustering_algorithms_available"; "kmeans"; "spectral";
             "agglomerative"; "DBSCAN"]).
Proof.
  intros Hd. rewrite list_elem_of_filter, dir_self_elem.
  unfold callable_attr. split.
  - intros [Hc Hin].
    destruct (decide (name ∈ instance_attrs)) as [Hi|Hni]; [destruct Hc|].
    destruct (decide (name ∈ class_functions)) as [Hcf|Hncf].
    + unfold class_functions in Hcf.
      apply elem_of_cons in Hcf as [->|Hcf]; [discriminate Hd|exact Hcf].
    + destruct Hin as [Hi|[Hcf|Hr]]; [contradiction|contradiction|].
      apply runtime_name_dunder in Hr. congruence.
  - intros Hin.
    assert (name ∈ class_functions) as Hcf by (right; exact Hin).
    assert (name ∉ instance_attrs) as Hni.
    { unfold instance_attrs.
      repeat (apply elem_of_cons in Hin as [->|Hin]);
        [| | | | |apply elem_of_nil in Hin as []];
        apply (bool_decide_unpack _); vm_compute; exact I. }
    rewrite decide_False by exact Hni. rewrite decide_True by exact Hcf.
    split; [exact I|]. right. left. exact Hcf.
Qed.

Lemma listed_methods ms :
  (∀ y, y ∈ ms ↔
        y ∈ filter (λ method, Is_true (callable_attr rt method)) (dir_self rt)
        ∧ y ≠ "clustering_algorithms_available") →
  listed ms = {[ "kmeans" := PyStr EmptyString; "spectral" := PyStr EmptyString;
                 "agglomerative" := PyStr EmptyString; "DBSCAN" := PyStr EmptyString ]}.
Proof.
  intros Hms. apply map_eq. intros name. unfold listed.
  rewrite listing_lookup, lookup_empty.
  destruct (decide (name ∈ ["kmeans"; "spectral"; "agglomerative"; "DBSCAN"]))
    as [Hin|Hnin].
  - assert (re_match_dunder name = false ∧
            name ≠ "clustering_algorithms_available") as [Hd Hne].
    { repeat (apply elem_of_cons in Hin as [->|Hin]);
        [| | | |apply elem_of_nil in Hin as []];
        (split; [reflexivity|discriminate]). }
    rewrite decide_True.
    + repeat (apply elem_of_cons in Hin as [->|Hin]);
        [| | | |apply elem_of_nil in Hin as []]; reflexivity.
    + split; [|exact Hd]. apply Hms. split; [|exact Hne].
      apply plain_methods; [exact Hd|]. right. exact Hin.
  - rewrite decide_False.
    + rewrite !not_elem_of_cons in Hnin.
      destruct Hnin as (H1 & H2 & H3 & H4 & _).
      rewrite !lookup_insert_ne by congruence.
      rewrite lookup_singleton_ne by congruence. reflexivity.
    + intros [[Hf Hne]%Hms Hd]. apply plain_methods in Hf; [|exact Hd].
      apply elem_of_cons in Hf as [->|Hf]; [apply Hne; reflexivity|].
      contradiction.
Qed.

(** C6.  Discovery returns a new dictionary whose keys are exactly the
    names of the four algorithm methods, not its own name and no name that
    begins with two underscores, each mapped to the empty string; the
    facade, the dictionaries that existed and the history of external calls
    are as before. *)
Theorem discovery_lists_algorithms w :
  ∃ l w1 (m : gmap string pyval),
    clustering_algorithms_available rt w = Ok l w1
    ∧ hp w1 !! l = Some m
    ∧ (∀ name, name ∈ dom m ↔ ∃ a, name = method_name a)
    ∧ (∀ name v, m !! name = Some v → v = PyStr EmptyString)
    ∧ self w1 = self w ∧ calls w1 = calls w
    ∧ hp w !! l = None
    ∧ (∀ l' (d : gmap string pyval),
         hp w !! l' = Some d → hp w1 !! l' = Some d).
Proof.
  rewrite available_closed.
  destruct (list_remove_spec "clustering_algorithms_available"
              (filter (λ method, Is_true (callable_attr rt method))
                      (dir_self rt)))
    as (ms & -> & Hms).
  { apply NoDup_filter, dir_self_NoDup. }
  { apply plain_methods; [reflexivity|left]. }
  pose proof (fresh_unused (hp w)) as Hl.
  do 3 eexists. split; [reflexivity|]. cbn [hp self calls].
  split; [apply lookup_insert_eq|]. rewrite (listed_methods ms Hms).
  split; [|split; [|split; [|split; [|split]]]]; try reflexivity.
  - intros name. rewrite !dom_insert_L, dom_singleton_L.
    rewrite !elem_of_union, !elem_of_singleton. split.
    + intros [-> | [-> | [-> | ->]]];
        [exists Kmeans|exists Spectral|exists Agglomerative|exists Dbscan];
        reflexivity.
    + intros [[] ->]; cbn [method_name]; auto.
  - intros name v Hv.
    rewrite !lookup_insert_Some, lookup_singleton_Some in Hv.
    destruct Hv as [[_ Hv] | [_ [[_ Hv] | [_ [[_ Hv] | [_ [_ Hv]]]]]]];
      symmetry; exact Hv.
  - exact Hl.
  - intros l' d Hd. rewrite lookup_insert_ne by congruence. exact Hd.
Qed.

End Discovered.

(** ** The specification's statements about the methods *)

Section Claims.

Variable fit : list ext_call → ext_call → fit_result.
Variable rt : list (string * bool).

(** C1.  On the first invocation after construction of any of the four
    methods, the stored options give every recognised name of the overlay
    the overlay's value, hold no name that only the overlay has, and keep
    the default of every recognised name the overlay lacks; with an empty
    overlay they are the table of defaults.  The method fails only with the
    exception of scikit-learn. *)
Theorem first_invocation_overlays_defaults a h d kwargs k c
    (ov : gmap string pyval) :
  h !! kwargs = Some ov →
  match invoke fit a (constructed h d kwargs k c) with
  | Ok _ w1 =>
      ∃ eff, stored_options w1 = Some eff
        ∧ (∀ name v, name ∈ recognized a → ov !! name = Some v →
                     eff !! name = Some v)
        ∧ (∀ name, name ∉ recognized a → eff !! name = None)
        ∧ (∀ name, name ∈ recognized a → ov !! name = None →
                   eff !! name = defaults_of a !! name)
        ∧ (ov = ∅ → eff = defaults_of a)
  | Raise e w1 => ∃ call, calls w1 = c ++ [call] ∧ fit c call = FitRaises e
  | Wrong => False
  end.
Proof.
  intros Hov. unfold recognized.
  destruct (invoke_result fit a (constructed h d kwargs k c) ov Hov)
    as (kw & _ & _ & Hres).
  destruct (invoke fit a _) as [[] w1|e w1|]; [| |exact Hres].
  - destruct Hres as (ls & _ & ->).
    exists (overlaid (defaults_of a) ov). unfold stored_options.
    cbn [hp self var_params]. rewrite lookup_insert_eq.
    split; [reflexivity|]. repeat split.
    + intros name v [v0 Hd]%elem_of_dom Hv.
      rewrite overlaid_lookup, Hd, Hv. reflexivity.
    + intros name Hn%not_elem_of_dom.
      rewrite overlaid_lookup, Hn. reflexivity.
    + intros name [v0 Hd]%elem_of_dom Hv.
      rewrite overlaid_lookup, Hd, Hv. reflexivity.
    + intros ->. apply overlaid_empty.
  - destruct Hres as (Hfit & ->). eexists. split; [reflexivity|exact Hfit].
Qed.

(** C2, in the form the code satisfies.  The facade has a single options field.  When method
    [a] returns, the field refers to the options [a] used, in a dictionary
    of its own, and the caller's dictionary is no longer consulted.  A
    method [b] invoked next stores its defaults overlaid with those
    options, which is what it stores on a facade constructed with them as
    overlay; when [b] is [a] this is also what it stores on a facade
    constructed with the caller's overlay. *)
Theorem reinvocation_overlays_previous_options a b h d kwargs k c
    (ov : gmap string pyval) wa wb :
  h !! kwargs = Some ov →
  invoke fit a (constructed h d kwargs k c) = Ok tt wa →
  invoke fit b wa = Ok tt wb →
  let eff_a := overlaid (defaults_of a) ov in
  stored_options wa = Some eff_a
  ∧ var_params (self wa) ≠ kwargs
  ∧ stored_options wb = Some (overlaid (defaults_of b) eff_a)
  ∧ (∀ fit' c' wf,
       invoke fit' b (constructed (hp wa) d (var_params (self wa)) k c')
         = Ok tt wf →
       stored_options wf = stored_options wb)
  ∧ (a = b →
     ∀ fit' c' wf,
       invoke fit' b (constructed h d kwargs k c') = Ok tt wf →
       stored_options wf = stored_options wb).
Proof.
  intros Hov Ha Hb. cbv zeta.
  remember (overlaid (defaults_of a) ov) as eff_a eqn:Heff.
  assert (∀ h' l ls kk cc (m : gmap string pyval),
            stored_options (World (<[l := m]> h') (Facade d ls l kk) cc)
            = Some m) as Hst by (intros; apply lookup_insert_eq).
  destruct (invoke_result fit a (constructed h d kwargs k c) ov Hov)
    as (kwa & _ & Hla & Hra).
  rewrite Ha in Hra. destruct Hra as (lsa & _ & Hwa).
  cbn [constructed hp self calls data K __init__] in Hwa, Hla.
  rewrite <- Heff in Hwa. subst wa.
  pose proof (Hst h (fresh (dom h)) lsa (default 2 k)
                (c ++ [ExtCall (estimator_of a) kwa d]) eff_a) as Hsa.
  destruct (invoke_result fit b _ eff_a Hsa) as (kwb & _ & _ & Hrb).
  rewrite Hb in Hrb. destruct Hrb as (lsb & _ & Hwb).
  cbn [hp self calls data K] in Hwb. subst wb.
  split; [exact Hsa|]. split; [cbn; congruence|].
  split; [apply Hst|]. split.
  - intros fit' c' wf Hwf.
    destruct (invoke_result fit' b
                (constructed (<[fresh (dom h) := eff_a]> h) d
                   (fresh (dom h)) k c') eff_a)
      as (kw' & _ & _ & Hr'); [apply lookup_insert_eq|].
    cbn [self var_params hp] in Hwf. rewrite Hwf in Hr'.
    destruct Hr' as (ls' & _ & ->). rewrite !Hst. reflexivity.
  - intros <- fit' c' wf Hwf.
    destruct (invoke_result fit' a (constructed h d kwargs k c') ov Hov)
      as (kw' & _ & _ & Hr').
    rewrite Hwf in Hr'. destruct Hr' as (ls' & _ & ->).
    rewrite !Hst. rewrite Heff, overlaid_idemp. reflexivity.
Qed.

(** C4, in the form the code satisfies.  Every method calls its own estimator once and fits it
    on the stored dataset.  kmeans, spectral and agglomerative pass the
    stored cluster count as [n_clusters]; DBSCAN, whose estimator has no
    such parameter, passes none.  kmeans, agglomerative and DBSCAN pass
    every merged option, and spectral every merged option other than
    [degree]; the merged options are the ones stored on return. *)
Theorem constructor_call_arguments a w (ov : gmap string pyval) :
  stored_options w = Some ov →
  let eff := overlaid (defaults_of a) ov in
  ∃ call,
    calls (after (invoke fit a w) w) = calls w ++ [call]
    ∧ ext_estimator call = estimator_of a
    ∧ fit_arg call = data (self w)
    ∧ (a ≠ Dbscan →
       ctor_kwargs call !! "n_clusters" = Some (PyInt (K (self w))))
    ∧ (a = Dbscan → ctor_kwargs call !! "n_clusters" = None)
    ∧ (∀ name, name ∈ recognized a → (a = Spectral → name ≠ "degree") →
               ctor_kwargs call !! name = eff !! name)
    ∧ match invoke fit a w with
      | Ok _ w1 => stored_options w1 = Some eff
      | Raise _ _ => True
      | Wrong => False
      end.
Proof.
  intros Hov eff.
  destruct (invoke_result fit a w ov Hov) as (kw & Hs & _ & Hres).
  destruct Hs as [HK Hfw _].
  exists (ExtCall (estimator_of a) kw (data (self w))).
  cbn [ext_estimator fit_arg ctor_kwargs].
  assert (∀ name, name ∈ recognized a → (a = Spectral → name ≠ "degree") →
                  kw !! name = eff !! name) as Hopts.
  { intros name Hn Hdeg. apply Hfw, recognized_forwarded; assumption. }
  assert ((a ≠ Dbscan → kw !! "n_clusters" = Some (PyInt (K (self w))))
          ∧ (a = Dbscan → kw !! "n_clusters" = None)) as [HK1 HK2].
  { rewrite HK. destruct a; cbn [takes_n_clusters]; split;
      congruence. }
  destruct (invoke fit a w) as [[] w1|e w1|]; [| |destruct Hres].
  - destruct Hres as (ls & _ & ->). cbn [after calls].
    repeat split; try assumption. apply lookup_insert_eq.
  - destruct Hres as (_ & ->). cbn [after calls].
    repeat split; assumption.
Qed.

(** C5, in the form the code satisfies.  Whatever the overlay holds and
    whatever was invoked before, when a method returns the stored options
    have exactly the recognised names of that method as keys; when it raises,
    the stored options are the ones stored before the call. *)
Theorem effective_options_keys ops a h d kwargs k c
    (ov : gmap string pyval) :
  h !! kwargs = Some ov →
  let w := run fit rt ops (constructed h d kwargs k c) in
  match invoke fit a w with
  | Ok _ w1 => ∃ eff, stored_options w1 = Some eff ∧ dom eff = recognized a
  | Raise e w1 =>
      (∃ call, calls w1 = calls w ++ [call]
               ∧ fit (calls w) call = FitRaises e)
      ∧ is_Some (stored_options w1)
      ∧ stored_options w1 = stored_options w
  | Wrong => False
  end.
Proof.
  intros Hov w.
  assert (well_formed w) as [ov' Hov'].
  { apply run_frame. exists ov. exact Hov. }
  destruct (invoke_result fit a w ov' Hov') as (kw & _ & Hl & Hres).
  destruct (invoke fit a w) as [[] w1|e w1|]; [| |exact Hres].
  - destruct Hres as (ls & _ & ->). eexists. unfold stored_options.
    cbn [hp self var_params]. rewrite lookup_insert_eq.
    split; [reflexivity|]. apply overlaid_dom.
  - destruct Hres as (Hfit & ->).
    assert (stored_options
              (World (<[fresh (dom (hp w)) := overlaid (defaults_of a) ov']>
                        (hp w)) (self w)
                     (calls w ++ [ExtCall (estimator_of a) kw
                                    (data (self w))]))
            = stored_options w) as Hsame.
    { unfold stored_options in *. cbn [hp self].
      apply lookup_insert_ne. congruence. }
    split; [eexists; split; [reflexivity|exact Hfit]|].
    rewrite Hsame. split; [rewrite Hov'; eauto|reflexivity].
Qed.

(** C7.  When scikit-learn raises, the method raises that very exception
    and the facade keeps its labels and its options as they were; the
    fields are written only when scikit-learn returns labels. *)
Theorem external_failure_propagates a w (ov : gmap string pyval) :
  stored_options w = Some ov →
  ∃ call,
    ext_estimator call = estimator_of a ∧ fit_arg call = data (self w) ∧
    match fit (calls w) call with
    | FitRaises e =>
        ∃ w1, invoke fit a w = Raise e w1
          ∧ calls w1 = calls w ++ [call]
          ∧ self w1 = self w
          ∧ stored_options w1 = Some ov
          ∧ (∀ l (d : gmap string pyval),
               hp w !! l = Some d → hp w1 !! l = Some d)
    | FitLabels ls =>
        ∃ w1, invoke fit a w = Ok tt w1
          ∧ calls w1 = calls w ++ [call]
          ∧ out (self w1) = ls
          ∧ stored_options w1 = Some (overlaid (defaults_of a) ov)
    end.
Proof.
  intros Hov.
  destruct (invoke_result fit a w ov Hov) as (kw & _ & Hl & Hres).
  eexists (ExtCall _ kw _). cbn [ext_estimator fit_arg].
  split; [reflexivity|]. split; [reflexivity|].
  destruct (invoke fit a w) as [[] w1|e w1|]; [| |destruct Hres].
  - destruct Hres as (ls & -> & ->). eexists. split; [reflexivity|].
    unfold stored_options. cbn [calls self out hp var_params].
    rewrite lookup_insert_eq. repeat split.
  - destruct Hres as (-> & ->). eexists. split; [reflexivity|].
    unfold stored_options in *. cbn [calls self hp].
    split; [reflexivity|]. split; [reflexivity|]. split.
    + rewrite lookup_insert_ne by congruence. exact Hov.
    + intros l d' Hd. rewrite lookup_insert_ne by congruence. exact Hd.
Qed.

(** C8.  If scikit-learn gives one label per row, then after a method
    returns the stored assignment has as many integer labels as the dataset
    has rows. *)
Theorem assignment_length a w :
  (∀ hist call ls,
     fit hist call = FitLabels ls → length ls = length (fit_arg call)) →
  well_formed w →
  match invoke fit a w with
  | Ok _ w1 =>
      length (out (self w1)) = length (data (self w1))
      ∧ data (self w1) = data (self w)
  | Raise e w1 => ∃ call, fit (calls w) call = FitRaises e
  | Wrong => False
  end.
Proof.
  intros Hfit [ov Hov].
  destruct (invoke_result fit a w ov Hov) as (kw & _ & _ & Hres).
  destruct (invoke fit a w) as [[] w1|e w1|]; [| |exact Hres].
  - destruct Hres as (ls & Hls & ->). cbn [self out data].
    split; [|reflexivity]. apply Hfit in Hls. exact Hls.
  - destruct Hres as (Hr & _). eauto.
Qed.

(** C9.  After any sequence of method invocations and discovery calls the
    dataset and the cluster count are those given at construction, and no
    single operation changes either. *)
Theorem dataset_and_K_fixed ops h d kwargs k c (ov : gmap string pyval) :
  h !! kwargs = Some ov →
  let w := run fit rt ops (constructed h d kwargs k c) in
  data (self w) = d ∧ K (self w) = default 2 k
  ∧ ∀ o, data (self (step fit rt o w)) = data (self w)
         ∧ K (self (step fit rt o w)) = K (self w).
Proof.
  intros Hov w.
  assert (well_formed (constructed h d kwargs k c)) as Hw0
    by (exists ov; exact Hov).
  destruct (run_frame fit rt ops _ Hw0) as (Hd & Hk & _ & Hw).
  split; [exact Hd|]. split; [exact Hk|].
  intros o. destruct (step_frame fit rt o _ Hw) as (Hd' & Hk' & _).
  split; assumption.
Qed.

(** C10.  The dictionary the caller gave at construction is never written:
    after any sequence of operations it holds what it held, and a method
    that returns has bound the options field to a dictionary that did not
    exist before the call. *)
Theorem caller_overlay_untouched ops h d kwargs k c
    (ov : gmap string pyval) :
  h !! kwargs = Some ov →
  let w := run fit rt ops (constructed h d kwargs k c) in
  hp w !! kwargs = Some ov
  ∧ ∀ a,
      match invoke fit a w with
      | Ok _ w1 =>
          hp w !! var_params (self w1) = None
          ∧ var_params (self w1) ≠ kwargs
          ∧ hp w1 !! kwargs = Some ov
      | Raise _ w1 => hp w1 !! kwargs = Some ov
      | Wrong => False
      end.
Proof.
  intros Hov w.
  assert (well_formed (constructed h d kwargs k c)) as Hw0
    by (exists ov; exact Hov).
  destruct (run_frame fit rt ops _ Hw0) as (_ & _ & Hh & [ov' Hov']).
  assert (hp w !! kwargs = Some ov) as Hkw
    by (eapply lookup_weaken; [exact Hov|exact Hh]).
  split; [exact Hkw|]. intros a.
  destruct (invoke_result fit a w ov' Hov') as (kw & _ & Hl & Hres).
  destruct (invoke fit a w) as [[] w1|e w1|]; [| |exact Hres].
  - destruct Hres as (ls & _ & ->). cbn [self var_params hp].
    split; [exact Hl|]. split; [congruence|].
    rewrite lookup_insert_ne by congruence. exact Hkw.
  - destruct Hres as (_ & ->). cbn [hp].
    rewrite lookup_insert_ne by congruence. exact Hkw.
Qed.

End Claims.

(** ** Where the code departs from the specification *)

(** C2 does not hold: on an empty overlay, [agglomerative] after [spectral]
    stores the affinity [rbf] that [spectral] used, where a new facade stores
    [euclidean]; the options consulted are no longer the caller's. *)
Lemma reinvocation_leaks_previous_options :
  ∃ wa wb wf,
    invoke fit_zero Spectral (example_world ∅) = Ok tt wa
    ∧ invoke fit_zero Agglomerative wa = Ok tt wb
    ∧ invoke fit_zero Agglomerative (example_world ∅) = Ok tt wf
    ∧ stored_options (example_world ∅) = Some ∅
    ∧ stored_options wa ≠ Some ∅
    ∧ stored_options wb ≫= (.!! "affinity") = Some (PyStr "rbf")
    ∧ stored_options wf ≫= (.!! "affinity") = Some (PyStr "euclidean")
    ∧ stored_options wb ≠ stored_options wf.
Proof.
  set (w0 := example_world ∅).
  exists (after (invoke fit_zero Spectral w0) w0).
  exists (after (invoke fit_zero Agglomerative
                   (after (invoke fit_zero Spectral w0) w0)) w0).
  exists (after (invoke fit_zero Agglomerative w0) w0).
  split; [vm_compute; reflexivity|].
  split; [vm_compute; reflexivity|].
  split; [vm_compute; reflexivity|].
  split; [vm_compute; reflexivity|].
  split.
  { intros H. apply (f_equal (λ o, o ≫= (.!! "affinity"))) in H.
    vm_compute in H. discriminate H. }
  split; [vm_compute; reflexivity|].
  split; [vm_compute; reflexivity|].
  intros H. apply (f_equal (λ o, o ≫= (.!! "affinity"))) in H.
  vm_compute in H. discriminate H.
Qed.

(** C3 does not hold of the code: with an empty overlay [DBSCAN] stores the
    tuples [(30,)] and [(None,)] under [leaf_size] and [p], not 30 and
    [None]. *)
Theorem dbscan_defaults_are_tuples :
  ∃ w1 eff,
    DBSCAN fit_zero (example_world ∅) = Ok tt w1
    ∧ stored_options w1 = Some eff
    ∧ eff !! "leaf_size" = Some (PyTuple [PyInt 30])
    ∧ eff !! "p" = Some (PyTuple [PyNone])
    ∧ eff !! "leaf_size" ≠ Some (PyInt 30)
    ∧ eff !! "p" ≠ Some PyNone.
Proof.
  destruct (invoke_result fit_zero Dbscan (example_world ∅) ∅ eq_refl)
    as (kw & _ & _ & Hres).
  cbn [invoke] in Hres.
  destruct (DBSCAN fit_zero (example_world ∅)) as [[] w1|e w1|];
    [| |destruct Hres].
  - destruct Hres as (ls & _ & ->). do 2 eexists.
    split; [reflexivity|]. split; [apply lookup_insert_eq|].
    rewrite overlaid_empty.
    split; [reflexivity|]. split; [reflexivity|].
    split; intros H; vm_compute in H; discriminate H.
  - destruct Hres as (Hf & _). discriminate Hf.
Qed.

(** C4 does not hold: the constructor call of [DBSCAN] carries the cluster
    count, here 2, under no name. *)
Lemma dbscan_call_omits_cluster_count :
  K (self (example_world ∅)) = 2
  ∧ ∃ w1 call,
      invoke fit_zero Dbscan (example_world ∅) = Ok tt w1
      ∧ calls w1 = [call]
      ∧ fit_arg call = example_table
      ∧ ∀ name, ctor_kwargs call !! name ≠ Some (PyInt 2).
Proof.
  split; [reflexivity|].
  destruct (invoke_result fit_zero Dbscan (example_world ∅) ∅ eq_refl)
    as (kw & [HK Hfw Honly] & _ & Hres).
  destruct (invoke fit_zero Dbscan (example_world ∅)) as [[] w1|e w1|];
    [| |destruct Hres].
  - destruct Hres as (ls & _ & ->). do 2 eexists.
    split; [reflexivity|]. split; [reflexivity|]. split; [reflexivity|].
    cbn [ctor_kwargs]. intros name Hn.
    destruct (Honly name) as [->|Hin]; [eauto| |].
    + rewrite HK in Hn. discriminate Hn.
    + rewrite (Hfw name Hin), overlaid_empty in Hn.
      cbn [forwarded] in Hin.
      repeat (apply elem_of_cons in Hin as [->|Hin]);
        try (apply elem_of_nil in Hin as []);
        vm_compute in Hn; discriminate Hn.
  - destruct Hres as (Hf & _). discriminate Hf.
Qed.

(** C5 does not hold: after [kmeans] has returned, a [DBSCAN] whose
    estimator raises leaves the options of [kmeans] in place, and their keys
    are not the names [DBSCAN] recognises. *)
Lemma failed_invocation_leaves_other_keys :
  ∃ w1 e w2 eff,
    invoke fit_kmeans_only Kmeans (example_world ∅) = Ok tt w1
    ∧ invoke fit_kmeans_only Dbscan w1 = Raise e w2
    ∧ stored_options w2 = Some eff
    ∧ dom eff = recognized Kmeans
    ∧ dom eff ≠ recognized Dbscan.
Proof.
  set (w0 := example_world ∅).
  set (w1 := after (invoke fit_kmeans_only Kmeans w0) w0).
  set (w2 := after (invoke fit_kmeans_only Dbscan w1) w1).
  exists w1, (ValueError "bad input shape"), w2, (defaults_of Kmeans).
  split; [vm_compute; reflexivity|].
  split; [vm_compute; reflexivity|].
  split; [vm_compute; reflexivity|].
  split; [reflexivity|].
  intros H.
  assert ("eps" ∈ recognized Dbscan) as Hin
    by (apply elem_of_dom; eexists; reflexivity).
  rewrite <- H in Hin. apply elem_of_dom in Hin as [v Hv].
  vm_compute in Hv. discriminate Hv.
Qed.

(** [spectral] records [degree] among the options used but does not hand it
    to the estimator. *)
Example spectral_does_not_forward_degree :
  ∃ w1 call,
    invoke fit_zero Spectral (example_world {[ "degree" := PyInt 5 ]})
      = Ok tt w1
    ∧ calls w1 = [call]
    ∧ ctor_kwargs call !! "degree" = None
    ∧ stored_options w1 ≫= (.!! "degree") = Some (PyInt 5).
Proof.
  set (w0 := example_world {[ "degree" := PyInt 5 ]}).
  exists (after (invoke fit_zero Spectral w0) w0).
  eexists. split; [vm_compute; reflexivity|].
  split; [vm_compute; reflexivity|].
  split; vm_compute; reflexivity.
Qed.

(** ** The theorems at concrete inputs *)

Lemma first_invocation_overlays_defaults_witness :
  example_store example_overlay !! 1%positive = Some example_overlay
  ∧ ∃ w1 eff,
      invoke fit_zero Kmeans (example_world example_overlay) = Ok tt w1
      ∧ stored_options w1 = Some eff
      ∧ eff !! "max_iter" = Some (PyInt 50)
      ∧ eff !! "eps" = None
      ∧ eff !! "n_init" = Some (PyInt 10).
Proof.
  split; [reflexivity|].
  pose proof (first_invocation_overlays_defaults fit_zero Kmeans
                (example_store example_overlay) example_table 1%positive
                None [] example_overlay eq_refl) as H.
  change (constructed _ _ _ _ _) with (example_world example_overlay) in H.
  destruct (invoke fit_zero Kmeans (example_world example_overlay))
    as [[] w1|e w1|].
  - destruct H as (eff & Hst & Hov & Hno & Hdf & _). exists w1, eff.
    split; [reflexivity|]. split; [exact Hst|].
    split; [apply Hov; [apply elem_of_dom; eexists|]; reflexivity|].
    split; [apply Hno, not_elem_of_dom; reflexivity|].
    rewrite Hdf; [reflexivity| |reflexivity].
    apply elem_of_dom. eexists. reflexivity.
  - destruct H as (call & _ & Hf). discriminate Hf.
  - destruct H.
Defined.

Lemma effective_options_keys_witness :
  example_store example_overlay !! 1%positive = Some example_overlay
  ∧ ∃ w1 eff,
      invoke fit_zero Dbscan
        (run fit_zero py3_runtime_attrs [Invoke Kmeans; Discover]
           (example_world example_overlay)) = Ok tt w1
      ∧ stored_options w1 = Some eff
      ∧ dom eff = recognized Dbscan.
Proof.
  split; [reflexivity|].
  pose proof (effective_options_keys fit_zero py3_runtime_attrs
                [Invoke Kmeans; Discover] Dbscan
                (example_store example_overlay) example_table 1%positive
                None [] example_overlay eq_refl) as H.
  cbv zeta in H.
  change (constructed _ _ _ _ _) with (example_world example_overlay) in H.
  destruct (invoke fit_zero Dbscan _) as [[] w1|e w1|].
  - destruct H as (eff & Hst & Hdom). exists w1, eff. auto.
  - destruct H as ((call & _ & Hf) & _). discriminate Hf.
  - destruct H.
Defined.

Lemma discovery_lists_algorithms_witness :
  Forall (λ nb, re_match_dunder nb.1 = true) py3_runtime_attrs
  ∧ ∃ l w1 (m : gmap string pyval),
      clustering_algorithms_available py3_runtime_attrs
        (example_world example_overlay) = Ok l w1
      ∧ hp w1 !! l = Some m
      ∧ (∀ name, name ∈ dom m ↔ ∃ a, name = method_name a)
      ∧ self w1 = self (example_world example_overlay).
Proof.
  assert (Forall (λ nb, re_match_dunder nb.1 = true) py3_runtime_attrs)
    as Hrt.
  { unfold py3_runtime_attrs.
    repeat first [apply Forall_nil_2 | apply Forall_cons_2; [reflexivity|]]. }
  split; [exact Hrt|].
  destruct (discovery_lists_algorithms py3_runtime_attrs Hrt
              (example_world example_overlay))
    as (l & w1 & m & H1 & H2 & H3 & _ & H5 & _).
  exists l, w1, m. auto.
Defined.

Lemma external_failure_propagates_witness :
  stored_options (example_world example_overlay) = Some example_overlay
  ∧ ∃ w1,
      invoke fit_fail Kmeans (example_world example_overlay)
        = Raise (ValueError "bad input shape") w1
      ∧ self w1 = self (example_world example_overlay)
      ∧ stored_options w1 = Some example_overlay.
Proof.
  split; [reflexivity|].
  destruct (external_failure_propagates fit_fail Kmeans
              (example_world example_overlay) example_overlay eq_refl)
    as (call & _ & _ & H).
  unfold fit_fail in H. cbv beta iota in H.
  destruct H as (w1 & H1 & _ & H2 & H3 & _). exists w1. auto.
Defined.

Lemma assignment_length_witness :
  (∀ hist call ls,
     fit_zero hist call = FitLabels ls → length ls = length (fit_arg call))
  ∧ well_formed (example_world example_overlay)
  ∧ ∃ w1,
      invoke fit_zero Agglomerative (example_world example_overlay)
        = Ok tt w1
      ∧ length (out (self w1)) = 3%nat.
Proof.
  assert (∀ hist call ls,
            fit_zero hist call = FitLabels ls →
            length ls = length (fit_arg call)) as Hfit.
  { intros hist call ls [= <-]. apply length_map. }
  assert (well_formed (example_world example_overlay)) as Hw
    by (exists example_overlay; reflexivity).
  split; [exact Hfit|]. split; [exact Hw|].
  pose proof (assignment_length fit_zero Agglomerative
                (example_world example_overlay) Hfit Hw) as H.
  destruct (invoke fit_zero Agglomerative _) as [[] w1|e w1|].
  - destruct H as (Hlen & Hd). exists w1. split; [reflexivity|].
    rewrite Hlen, Hd. reflexivity.
  - destruct H as (call & Hf). discriminate Hf.
  - destruct H.
Defined.

Lemma dataset_and_K_fixed_witness :
  example_store example_overlay !! 1%positive = Some example_overlay
  ∧ data (self (run fit_zero py3_runtime_attrs
                  [Invoke Kmeans; Discover; Invoke Dbscan]
                  (example_world example_overlay))) = example_table
  ∧ K (self (run fit_zero py3_runtime_attrs
               [Invoke Kmeans; Discover; Invoke Dbscan]
               (example_world example_overlay))) = 2.
Proof.
  split; [reflexivity|].
  destruct (dataset_and_K_fixed fit_zero py3_runtime_attrs
              [Invoke Kmeans; Discover; Invoke Dbscan]
              (example_store example_overlay) example_table 1%positive
              None [] example_overlay eq_refl) as (Hd & Hk & _).
  split; [exact Hd|exact Hk].
Defined.

Lemma caller_overlay_untouched_witness :
  example_store example_overlay !! 1%positive = Some example_overlay
  ∧ hp (run fit_zero py3_runtime_attrs [Invoke Kmeans; Invoke Spectral]
          (example_world example_overlay)) !! 1%positive
    = Some example_overlay.
Proof.
  split; [reflexivity|].
  exact (proj1 (caller_overlay_untouched fit_zero py3_runtime_attrs
                  [Invoke Kmeans; Invoke Spectral]
                  (example_store example_overlay) example_table 1%positive
                  None [] example_overlay eq_refl)).
Defined.

Lemma reinvocation_overlays_previous_options_witness :
  example_store ∅ !! 1%positive = Some ∅
  ∧ ∃ wa wb,
      invoke fit_zero Spectral (example_world ∅) = Ok tt wa
      ∧ invoke fit_zero Agglomerative wa = Ok tt wb
      ∧ stored_options wb
        = Some (overlaid (defaults_of Agglomerative)
                  (overlaid (defaults_of Spectral) ∅)).
Proof.
  split; [reflexivity|].
  set (w0 := example_world ∅).
  set (wa := after (invoke fit_zero Spectral w0) w0).
  set (wb := after (invoke fit_zero Agglomerative wa) wa).
  assert (invoke fit_zero Spectral w0 = Ok tt wa) as Ha
    by (vm_compute; reflexivity).
  assert (invoke fit_zero Agglomerative wa = Ok tt wb) as Hb
    by (vm_compute; reflexivity).
  exists wa, wb. split; [exact Ha|]. split; [exact Hb|].
  destruct (reinvocation_overlays_previous_options fit_zero Spectral
              Agglomerative (example_store ∅) example_table 1%positive None
              [] ∅ wa wb eq_refl Ha Hb) as (_ & _ & H & _).
  exact H.
Defined.

Lemma constructor_call_arguments_witness :
  stored_options (example_world example_overlay) = Some example_overlay
  ∧ ∃ call,
      calls (after (invoke fit_zero Kmeans (example_world example_overlay))
               (example_world example_overlay)) = [call]
      ∧ ctor_kwargs call !! "n_clusters" = Some (PyInt 2)
      ∧ ctor_kwargs call !! "max_iter" = Some (PyInt 50).
Proof.
  split; [reflexivity|].
  destruct (constructor_call_arguments fit_zero Kmeans
              (example_world example_overlay) example_overlay eq_refl)
    as (call & H1 & _ & _ & HK & _ & Hopts & _).
  exists call. split; [exact H1|]. split; [apply HK; discriminate|].
  rewrite Hopts; [vm_compute; reflexivity| |discriminate].
  apply elem_of_dom. eexists. reflexivity.
Defined.

(** * Further properties *)

(** ** More on the constructor call *)

Lemma sent_unique a k (p kw kw' : gmap string pyval) :
  sent a k p kw → sent a k p kw' → kw = kw'.
Proof.
  intros [HK Hf Ho] [HK' Hf' Ho']. apply map_eq. intros name.
  destruct (decide (name = "n_clusters")) as [->|Hn]; [congruence|].
  destruct (decide (name ∈ forwarded a)) as [Hin|Hnin].
  { rewrite Hf, Hf' by exact Hin. reflexivity. }
  destruct (kw !! name) as [v|] eqn:E.
  { destruct (Ho name) as [?|?]; [eauto|contradiction..]. }
  destruct (kw' !! name) as [v'|] eqn:E'; [|reflexivity].
  destruct (Ho' name) as [?|?]; [eauto|contradiction..].
Qed.

Lemma overlaid_agree (dflt ov1 ov2 : gmap string pyval) :
  (∀ name, name ∈ dom dflt → ov1 !! name = ov2 !! name) →
  overlaid dflt ov1 = overlaid dflt ov2.
Proof.
  intros Hag. apply map_eq. intros name. rewrite !overlaid_lookup.
  destruct (dflt !! name) as [v|] eqn:E; [|reflexivity].
  rewrite Hag; [reflexivity|]. apply elem_of_dom. eauto.
Qed.


Section Requests.

Variable fit1 fit2 : list ext_call → ext_call → fit_result.

(** The call a method makes and the options it stores when it returns. *)
Lemma invoke_summary fit a w (ov : gmap string pyval) :
  stored_options w = Some ov →
  ∃ kw,
    sent a (K (self w)) (overlaid (defaults_of a) ov) kw
    ∧ calls (after (invoke fit a w) w)
      = calls w ++ [ExtCall (estimator_of a) kw (data (self w))]
    ∧ (∀ w', invoke fit a w = Ok tt w' →
             stored_options w' = Some (overlaid (defaults_of a) ov)).
Proof.
  intros Hov. destruct (invoke_result fit a w ov Hov) as (kw & Hs & _ & Hr).
  exists kw. split; [exact Hs|].
  destruct (invoke fit a w) as [[] w1|e w1|]; [| |destruct Hr].
  - destruct Hr as (ls & _ & ->). cbn [after calls].
    split; [reflexivity|]. intros w' [= <-]. apply lookup_insert_eq.
  - destruct Hr as (_ & ->). cbn [after calls].
    split; [reflexivity|]. intros w' [=].
Qed.

(** Two facades with the same dataset and cluster count whose options agree
    on the names a method recognises are served alike by that method. *)
Lemma same_request a w1 w2 (ov1 ov2 : gmap string pyval) :
  stored_options w1 = Some ov1 →
  stored_options w2 = Some ov2 →
  (∀ name, name ∈ recognized a → ov1 !! name = ov2 !! name) →
  data (self w1) = data (self w2) →
  K (self w1) = K (self w2) →
  ∃ call,
    calls (after (invoke fit1 a w1) w1) = calls w1 ++ [call]
    ∧ calls (after (invoke fit2 a w2) w2) = calls w2 ++ [call]
    ∧ (∀ w1', invoke fit1 a w1 = Ok tt w1' →
              stored_options w1' = Some (overlaid (defaults_of a) ov1))
    ∧ (∀ w2', invoke fit2 a w2 = Ok tt w2' →
              stored_options w2' = Some (overlaid (defaults_of a) ov1)).
Proof.
  intros H1 H2 Hag Hd Hk.
  destruct (invoke_summary fit1 a w1 ov1 H1) as (kw1 & Hs1 & Hc1 & Ho1).
  destruct (invoke_summary fit2 a w2 ov2 H2) as (kw2 & Hs2 & Hc2 & Ho2).
  rewrite <- (overlaid_agree (defaults_of a) ov1 ov2 Hag) in Hs2, Ho2.
  rewrite <- Hk in Hs2. pose proof (sent_unique _ _ _ _ _ Hs1 Hs2) as <-.
  rewrite <- Hd in Hc2. eauto.
Qed.

End Requests.

(** ** Further properties of the methods *)

Section Further.

Variable fit : list ext_call → ext_call → fit_result.
Variable rt : list (string * bool).

(** X1.  A method looks at the stored options only under the names it
    recognises: two facades with the same dataset and cluster count whose
    options agree on those names make the same constructor call and store
    the same options, so a name the method does not recognise changes
    neither. *)
Theorem overlays_agreeing_on_recognized fit' a w1 w2
    (ov1 ov2 : gmap string pyval) :
  stored_options w1 = Some ov1 →
  stored_options w2 = Some ov2 →
  (∀ name, name ∈ recognized a → ov1 !! name = ov2 !! name) →
  data (self w1) = data (self w2) →
  K (self w1) = K (self w2) →
  ∃ call eff,
    calls (after (invoke fit a w1) w1) = calls w1 ++ [call]
    ∧ calls (after (invoke fit' a w2) w2) = calls w2 ++ [call]
    ∧ (∀ w1', invoke fit a w1 = Ok tt w1' → stored_options w1' = Some eff)
    ∧ (∀ w2', invoke fit' a w2 = Ok tt w2' → stored_options w2' = Some eff).
Proof.
  intros H1 H2 Hag Hd Hk.
  destruct (same_request fit fit' a w1 w2 ov1 ov2 H1 H2 Hag Hd Hk)
    as (call & Hc1 & Hc2 & Ho1 & Ho2).
  exists call, (overlaid (defaults_of a) ov1). auto.
Qed.

Lemma step_calls o w :
  well_formed w →
  ∃ new,
    calls (step fit rt o w) = calls w ++ new
    ∧ ext_estimator <$> new = estimators_called [o]
    ∧ Forall (λ c, fit_arg c = data (self w)) new.
Proof.
  intros [ov Hov]. destruct o as [a|]; cbn [step].
  - destruct (invoke_summary fit a w ov Hov) as (kw & _ & Hc & _).
    eexists. split; [exact Hc|]. split; [reflexivity|].
    apply Forall_singleton. reflexivity.
  - destruct (discover_frame rt w) as (_ & Hc & _).
    exists []. rewrite Hc, app_nil_r. split; [reflexivity|].
    split; [reflexivity|apply Forall_nil_2].
Qed.

(** X2.  Over any sequence of operations the history of external calls only
    grows at its end: every method invocation, returning or failing, adds one
    call to its own estimator on the facade's dataset, and discovery adds
    none. *)
Theorem external_calls_follow_invocations ops : ∀ w,
  well_formed w →
  ∃ new,
    calls (run fit rt ops w) = calls w ++ new
    ∧ ext_estimator <$> new = estimators_called ops
    ∧ Forall (λ c, fit_arg c = data (self w)) new.
Proof.
  induction ops as [|o ops IH]; intros w Hw.
  - exists []. rewrite app_nil_r. split; [reflexivity|].
    split; [reflexivity|apply Forall_nil_2].
  - destruct (step_calls o w Hw) as (new1 & Hc1 & He1 & Hf1).
    destruct (step_frame fit rt o w Hw) as (Hd & _ & _ & Hw1).
    destruct (IH _ Hw1) as (new2 & Hc2 & He2 & Hf2).
    exists (new1 ++ new2). change (run fit rt (o :: ops) w)
      with (run fit rt ops (step fit rt o w)).
    rewrite Hc2, Hc1, <- app_assoc. split; [reflexivity|].
    split.
    + rewrite fmap_app, He1, He2. destruct o; reflexivity.
    + apply Forall_app. split; [exact Hf1|].
      rewrite Hd in Hf2. exact Hf2.
Qed.

(** X3.  What the facade hands out is never written again: the options
    dictionary a returning method leaves in [var_params], and the dictionary
    a discovery call returns, hold the same contents after any further
    sequence of operations. *)
Theorem results_are_snapshots ops w :
  well_formed w →
  (∀ a w1, invoke fit a w = Ok tt w1 →
     ∃ eff, stored_options w1 = Some eff
            ∧ hp (run fit rt ops w1) !! var_params (self w1) = Some eff)
  ∧ (∀ l w1 (m : gmap string pyval),
       clustering_algorithms_available rt w = Ok l w1 →
       hp w1 !! l = Some m →
       hp (run fit rt ops w1) !! l = Some m).
Proof.
  intros Hw. split.
  - intros a w1 Ha.
    pose proof (invoke_frame fit a w Hw) as Hf. rewrite Ha in Hf.
    cbn [after] in Hf. destruct Hf as (_ & _ & _ & [eff Heff]).
    exists eff. split; [exact Heff|].
    assert (well_formed w1) as Hw1 by (exists eff; exact Heff).
    destruct (run_frame fit rt ops w1 Hw1) as (_ & _ & Hsub & _).
    eapply lookup_weaken; [exact Heff|exact Hsub].
  - intros l w1 m Hd Hm.
    pose proof (step_frame fit rt Discover w Hw) as Hf.
    cbn [step] in Hf. rewrite Hd in Hf. cbn [after] in Hf.
    destruct Hf as (_ & _ & _ & Hw1).
    destruct (run_frame fit rt ops w1 Hw1) as (_ & _ & Hsub & _).
    eapply lookup_weaken; [exact Hm|exact Hsub].
Qed.

(** X4.  Whatever attributes the interpreter provides, discovery never
    raises: removing its own name from the list always succeeds.  The
    dictionary it returns always lists the four algorithm methods, never its
    own name, a name beginning with two underscores or a field of the
    facade, and maps every key to the empty string. *)
Theorem discovery_never_raises w :
  ∃ l w1 (m : gmap string pyval),
    clustering_algorithms_available rt w = Ok l w1
    ∧ hp w1 !! l = Some m
    ∧ (∀ a, m !! method_name a = Some (PyStr EmptyString))
    ∧ m !! "clustering_algorithms_available" = None
    ∧ (∀ name, re_match_dunder name = true → m !! name = None)
    ∧ (∀ name, name ∈ instance_attrs → m !! name = None)
    ∧ (∀ name v, m !! name = Some v →
                 v = PyStr EmptyString ∧ Is_true (callable_attr rt name)).
Proof.
  rewrite available_closed.
  assert (∀ name, name ∈ class_functions →
            name ∈ filter (λ method, Is_true (callable_attr rt method))
                     (dir_self rt)) as Hcls.
  { intros name Hin. apply list_elem_of_filter. split.
    - unfold callable_attr. rewrite decide_False.
      + rewrite decide_True by exact Hin. exact I.
      + unfold class_functions, instance_attrs in *.
        repeat (apply elem_of_cons in Hin as [->|Hin]);
          try (apply elem_of_nil in Hin as []);
          apply (bool_decide_unpack _); vm_compute; exact I.
    - apply dir_self_elem. right. left. exact Hin. }
  destruct (list_remove_spec "clustering_algorithms_available"
              (filter (λ method, Is_true (callable_attr rt method))
                      (dir_self rt)))
    as (ms & -> & Hms).
  { apply NoDup_filter, dir_self_NoDup. }
  { apply Hcls. unfold class_functions. right. left. }
  do 3 eexists. split; [reflexivity|]. cbn [hp].
  split; [apply lookup_insert_eq|].
  assert (∀ name, listed ms !! name
            = if decide (name ∈ ms ∧ re_match_dunder name = false)
              then Some (PyStr EmptyString) else None) as Hlk.
  { intros name. unfold listed. rewrite listing_lookup, lookup_empty.
    reflexivity. }
  split; [|split; [|split; [|split]]].
  - intros a. rewrite Hlk, decide_True; [reflexivity|].
    split; [|destruct a; reflexivity]. apply Hms. split.
    + apply Hcls. unfold class_functions.
      destruct a; cbn [method_name]; repeat constructor.
    + destruct a; discriminate.
  - rewrite Hlk, decide_False; [reflexivity|].
    intros [[_ Hne]%Hms _]. apply Hne. reflexivity.
  - intros name Hd. rewrite Hlk, decide_False; [reflexivity|].
    intros [_ Hd']. congruence.
  - intros name Hin. rewrite Hlk, decide_False; [reflexivity|].
    intros [[[Hc _]%list_elem_of_filter _]%Hms _].
    unfold callable_attr in Hc. rewrite decide_True in Hc by exact Hin.
    exact Hc.
  - intros name v. rewrite Hlk.
    destruct (decide _) as [[[[Hc _]%list_elem_of_filter _]%Hms _]|];
      [|discriminate].
    intros [= <-]. split; [reflexivity|exact Hc].
Qed.


(** X6.  [spectral] never hands [degree] to the estimator, whatever the
    stored options hold, although it records [degree] among the options
    used: the overlay's value if it has one, otherwise 3. *)
Theorem spectral_never_forwards_degree w (ov : gmap string pyval) :
  stored_options w = Some ov →
  ∃ call,
    calls (after (spectral fit w) w) = calls w ++ [call]
    ∧ ctor_kwargs call !! "degree" = None
    ∧ (∀ w', spectral fit w = Ok tt w' →
             stored_options w' ≫= (.!! "degree")
             = Some (default (PyInt 3) (ov !! "degree"))).
Proof.
  intros Hov.
  destruct (invoke_summary fit Spectral w ov Hov)
    as (kw & [HK Hf Ho] & Hc & Hst).
  cbn [invoke] in Hc, Hst. eexists. split; [exact Hc|]. cbn [ctor_kwargs].
  split.
  - destruct (kw !! "degree") as [v|] eqn:E; [|reflexivity].
    destruct (Ho "degree") as [[=]|Hin]; [eauto|].
    cbn [forwarded] in Hin.
    repeat (apply elem_of_cons in Hin as [[=]|Hin]).
    apply elem_of_nil in Hin as [].
  - intros w' Hw'. rewrite (Hst w' Hw'). cbn [mbind option_bind].
    rewrite overlaid_lookup. reflexivity.
Qed.

(** X7.  [DBSCAN] hands the estimator the stored value of [leaf_size] and of
    [p] when the stored options have one, and otherwise the one-element
    tuples [(30,)] and [(None,)]: the tuple defaults reach scikit-learn, not
    only the record of the options used. *)
Theorem dbscan_forwards_tuple_defaults w (ov : gmap string pyval) :
  stored_options w = Some ov →
  ∃ call,
    calls (after (DBSCAN fit w) w) = calls w ++ [call]
    ∧ ctor_kwargs call !! "leaf_size"
      = Some (default (PyTuple [PyInt 30]) (ov !! "leaf_size"))
    ∧ ctor_kwargs call !! "p" = Some (default (PyTuple [PyNone]) (ov !! "p")).
Proof.
  intros Hov.
  destruct (invoke_summary fit Dbscan w ov Hov) as (kw & [_ Hf _] & Hc & _).
  cbn [invoke] in Hc. eexists. split; [exact Hc|]. cbn [ctor_kwargs].
  split; (rewrite Hf; [rewrite overlaid_lookup; reflexivity|]);
    cbn [forwarded]; repeat constructor.
Qed.

(** X8.  A failed invocation does not use up the stored options: after a
    method has raised, any method makes the constructor call and, when it
    returns, stores the options that it would have without the failed
    invocation. *)
Theorem failed_invocation_keeps_options fit1 fit2 a b e w w1
    (ov : gmap string pyval) :
  stored_options w = Some ov →
  invoke fit a w = Raise e w1 →
  stored_options w1 = Some ov
  ∧ ∃ call eff,
      calls (after (invoke fit1 b w1) w1) = calls w1 ++ [call]
      ∧ calls (after (invoke fit2 b w) w) = calls w ++ [call]
      ∧ (∀ w', invoke fit1 b w1 = Ok tt w' → stored_options w' = Some eff)
      ∧ (∀ w', invoke fit2 b w = Ok tt w' → stored_options w' = Some eff).
Proof.
  intros Hov Ha.
  destruct (invoke_result fit a w ov Hov) as (kw & _ & Hl & Hr).
  rewrite Ha in Hr. destruct Hr as (_ & ->).
  assert (stored_options
            (World (<[fresh (dom (hp w)) := overlaid (defaults_of a) ov]>
                      (hp w)) (self w)
                   (calls w ++ [ExtCall (estimator_of a) kw (data (self w))]))
          = Some ov) as Hov1.
  { unfold stored_options in *. cbn [hp self].
    rewrite lookup_insert_ne by congruence. exact Hov. }
  split; [exact Hov1|].
  destruct (same_request fit1 fit2 b _ w ov ov Hov1 Hov)
    as (call & Hc1 & Hc2 & Ho1 & Ho2); [reflexivity..|].
  exists call, (overlaid (defaults_of b) ov). auto.
Qed.

(** X9.  The merged dictionary does not depend on the order in which the
    loop visits the common names: run over any list of exactly those names,
    in any order and with repetitions, the loop body leaves what the loop
    over the set leaves. *)
Theorem overlay_order_irrelevant h s c l (dflt ov : gmap string pyval)
    (ks : list string) :
  h !! l = None →
  h !! var_params s = Some ov →
  (∀ k, k ∈ ks ↔ k ∈ dom dflt ∧ k ∈ dom ov) →
  for_each ks (λ key,
    s' ← get_self;
    v ← dict_get (var_params s') key;
    dict_set l key v) (World (<[l := dflt]> h) s c)
  = overlay l (World (<[l := dflt]> h) s c).
Proof.
  intros Hl Hov Hks.
  assert (l ≠ var_params s) as Hne by congruence.
  rewrite (overlay_at h s c l dflt ov Hl Hov).
  rewrite (for_each_overlay h s c l ov ks Hne Hov).
  - do 3 f_equal. apply map_eq. intros k.
    rewrite foldl_insert_lookup, overlaid_lookup.
    destruct (decide (k ∈ ks)) as [Hin|Hnin].
    + apply Hks in Hin as [[v0 Hv0]%elem_of_dom [v Hv]%elem_of_dom].
      rewrite Hv0, Hv, (lookup_total_correct _ _ _ Hv). reflexivity.
    + destruct (dflt !! k) as [v0|] eqn:Hv0; [|reflexivity].
      destruct (ov !! k) as [v|] eqn:Hv; [|reflexivity].
      exfalso. apply Hnin, Hks. split; apply elem_of_dom; eauto.
  - apply Forall_forall. intros k [_ Hin]%Hks. apply elem_of_dom, Hin.
Qed.

(** X10.  Once a method has returned, a later method reads the options that
    method stored, not the caller's: under a name both recognise it stores
    the earlier method's value (the overlay's, or else the earlier method's
    default), and under a name only it recognises it stores its own default,
    whatever the caller's overlay holds. *)
Theorem later_method_sees_earlier_options fit' a b w wa wb
    (ov : gmap string pyval) :
  stored_options w = Some ov →
  invoke fit a w = Ok tt wa →
  invoke fit' b wa = Ok tt wb →
  ∃ eff_b,
    stored_options wb = Some eff_b
    ∧ ∀ name vb,
        defaults_of b !! name = Some vb →
        eff_b !! name
        = Some match defaults_of a !! name with
               | Some va => default va (ov !! name)
               | None => vb
               end.
Proof.
  intros Hov Ha Hb.
  destruct (invoke_summary fit a w ov Hov) as (_ & _ & _ & Hsa).
  specialize (Hsa wa Ha).
  destruct (invoke_summary fit' b wa _ Hsa) as (_ & _ & _ & Hsb).
  specialize (Hsb wb Hb). eexists. split; [exact Hsb|].
  intros name vb Hvb. rewrite !overlaid_lookup, Hvb.
  destruct (defaults_of a !! name); reflexivity.
Qed.

End Further.

(** ** The further properties at concrete inputs *)

Lemma overlays_agreeing_on_recognized_witness :
  stored_options (example_world example_overlay) = Some example_overlay
  ∧ stored_options (example_world {[ "max_iter" := PyInt 50 ]})
    = Some {[ "max_iter" := PyInt 50 ]}
  ∧ (∀ name, name ∈ recognized Kmeans →
             example_overlay !! name
             = ({[ "max_iter" := PyInt 50 ]} : gmap string pyval) !! name)
  ∧ ∃ call,
      calls (after (invoke fit_zero Kmeans (example_world example_overlay))
               (example_world example_overlay)) = [call]
      ∧ calls (after (invoke fit_fail Kmeans
                        (example_world {[ "max_iter" := PyInt 50 ]}))
                 (example_world {[ "max_iter" := PyInt 50 ]})) = [call].
Proof.
  assert (∀ name, name ∈ recognized Kmeans →
            example_overlay !! name
            = ({[ "max_iter" := PyInt 50 ]} : gmap string pyval) !! name)
    as Hag.
  { intros name Hin. unfold example_overlay.
    destruct (decide (name = "max_iter")) as [->|Hne]; [reflexivity|].
    rewrite lookup_insert_ne by congruence.
    rewrite !lookup_singleton_ne; [reflexivity|congruence|].
    intros <-. revert Hin. apply not_elem_of_dom. reflexivity. }
  split; [reflexivity|]. split; [reflexivity|]. split; [exact Hag|].
  destruct (overlays_agreeing_on_recognized fit_zero fit_fail Kmeans
              (example_world example_overlay)
              (example_world {[ "max_iter" := PyInt 50 ]})
              example_overlay {[ "max_iter" := PyInt 50 ]}
              eq_refl eq_refl Hag eq_refl eq_refl)
    as (call & eff & H1 & H2 & _).
  exists call. split; [exact H1|exact H2].
Defined.

Lemma external_calls_follow_invocations_witness :
  well_formed (example_world example_overlay)
  ∧ ext_estimator <$>
      calls (run fit_zero py3_runtime_attrs
               [Invoke Kmeans; Discover; Invoke Dbscan]
               (example_world example_overlay))
    = [SkKMeans; SkDBSCAN].
Proof.
  assert (well_formed (example_world example_overlay)) as Hw
    by (exists example_overlay; reflexivity).
  split; [exact Hw|].
  destruct (external_calls_follow_invocations fit_zero py3_runtime_attrs
              [Invoke Kmeans; Discover; Invoke Dbscan]
              (example_world example_overlay) Hw) as (new & Hc & He & _).
  rewrite Hc. exact He.
Defined.

Lemma results_are_snapshots_witness :
  well_formed (example_world example_overlay)
  ∧ ∃ w1 eff,
      invoke fit_zero Kmeans (example_world example_overlay) = Ok tt w1
      ∧ stored_options w1 = Some eff
      ∧ hp (run fit_zero py3_runtime_attrs [Invoke Dbscan; Discover] w1)
          !! var_params (self w1) = Some eff.
Proof.
  assert (well_formed (example_world example_overlay)) as Hw
    by (exists example_overlay; reflexivity).
  split; [exact Hw|].
  set (w1 := after (invoke fit_zero Kmeans (example_world example_overlay))
               (example_world example_overlay)).
  assert (invoke fit_zero Kmeans (example_world example_overlay) = Ok tt w1)
    as H1 by (vm_compute; reflexivity).
  destruct (proj1 (results_are_snapshots fit_zero py3_runtime_attrs
                     [Invoke Dbscan; Discover]
                     (example_world example_overlay) Hw) Kmeans w1 H1)
    as (eff & Hs & Hk).
  exists w1, eff. auto.
Defined.


Lemma spectral_never_forwards_degree_witness :
  stored_options (example_world {[ "degree" := PyInt 5 ]})
  = Some {[ "degree" := PyInt 5 ]}
  ∧ ∃ call,
      calls (after (spectral fit_zero (example_world {[ "degree" := PyInt 5 ]}))
               (example_world {[ "degree" := PyInt 5 ]})) = [call]
      ∧ ctor_kwargs call !! "degree" = None.
Proof.
  split; [reflexivity|].
  destruct (spectral_never_forwards_degree fit_zero
              (example_world {[ "degree" := PyInt 5 ]})
              {[ "degree" := PyInt 5 ]} eq_refl) as (call & Hc & Hd & _).
  exists call. split; [exact Hc|exact Hd].
Defined.

Lemma dbscan_forwards_tuple_defaults_witness :
  stored_options (example_world example_overlay) = Some example_overlay
  ∧ ∃ call,
      calls (after (DBSCAN fit_zero (example_world example_overlay))
               (example_world example_overlay)) = [call]
      ∧ ctor_kwargs call !! "leaf_size" = Some (PyTuple [PyInt 30])
      ∧ ctor_kwargs call !! "p" = Some (PyTuple [PyNone]).
Proof.
  split; [reflexivity|].
  destruct (dbscan_forwards_tuple_defaults fit_zero
              (example_world example_overlay) example_overlay eq_refl)
    as (call & Hc & Hl & Hp).
  exists call. split; [exact Hc|]. split; [exact Hl|exact Hp].
Defined.

Lemma failed_invocation_keeps_options_witness :
  stored_options (example_world example_overlay) = Some example_overlay
  ∧ ∃ e w1,
      invoke fit_fail Kmeans (example_world example_overlay) = Raise e w1
      ∧ stored_options w1 = Some example_overlay
      ∧ ∃ call,
          calls (after (invoke fit_zero Dbscan w1) w1) = calls w1 ++ [call]
          ∧ calls (after (invoke fit_zero Dbscan
                            (example_world example_overlay))
                     (example_world example_overlay)) = [call].
Proof.
  split; [reflexivity|].
  set (w1 := after (invoke fit_fail Kmeans (example_world example_overlay))
               (example_world example_overlay)).
  assert (invoke fit_fail Kmeans (example_world example_overlay)
          = Raise (ValueError "bad input shape") w1) as H1
    by (vm_compute; reflexivity).
  destruct (failed_invocation_keeps_options fit_fail fit_zero fit_zero
              Kmeans Dbscan _ (example_world example_overlay) w1
              example_overlay eq_refl H1)
    as (Hs & call & eff & Hc1 & Hc2 & _).
  exists (ValueError "bad input shape"), w1.
  split; [exact H1|]. split; [exact Hs|].
  exists call. split; [exact Hc1|exact Hc2].
Defined.

Lemma overlay_order_irrelevant_witness :
  example_store example_dbscan_overlay !! 2%positive = None
  ∧ example_store example_dbscan_overlay !! 1%positive
    = Some example_dbscan_overlay
  ∧ (∀ k, k ∈ ["min_samples"; "eps"; "min_samples"]
          ↔ k ∈ dom (defaults_of Dbscan) ∧ k ∈ dom example_dbscan_overlay)
  ∧ ["min_samples"; "eps"; "min_samples"]
    ≠ elements (dom (defaults_of Dbscan) ∩ dom example_dbscan_overlay)
  ∧ ["min_samples"; "eps"; "min_samples"]
    ≠ reverse (elements (dom (defaults_of Dbscan)
                         ∩ dom example_dbscan_overlay))
  ∧ for_each ["min_samples"; "eps"; "min_samples"]
      (λ key,
         s' ← get_self;
         v ← dict_get (var_params s') key;
         dict_set 2%positive key v)
      (World (<[2%positive := defaults_of Dbscan]>
                (example_store example_dbscan_overlay))
             (__init__ example_table 1%positive None) [])
    = overlay 2%positive
        (World (<[2%positive := defaults_of Dbscan]>
                  (example_store example_dbscan_overlay))
               (__init__ example_table 1%positive None) []).
Proof.
  assert (∀ k, k ∈ ["min_samples"; "eps"; "min_samples"]
               ↔ k ∈ dom (defaults_of Dbscan)
                 ∧ k ∈ dom example_dbscan_overlay) as Hks.
  { intros k. split.
    - intros Hin.
      repeat (apply elem_of_cons in Hin as [->|Hin]);
        try (apply elem_of_nil in Hin as []);
        (split; apply elem_of_dom; eexists; reflexivity).
    - intros [_ Hin]. unfold example_dbscan_overlay in Hin.
      rewrite dom_insert_L, dom_singleton_L in Hin.
      apply elem_of_union in Hin as [Hin|Hin];
        apply elem_of_singleton in Hin as ->; repeat constructor. }
  split; [reflexivity|]. split; [reflexivity|]. split; [exact Hks|].
  split; [intros H; vm_compute in H; discriminate H|].
  split; [intros H; vm_compute in H; discriminate H|].
  exact (overlay_order_irrelevant (example_store example_dbscan_overlay)
           (__init__ example_table 1%positive None) [] 2%positive
           (defaults_of Dbscan) example_dbscan_overlay _ eq_refl eq_refl
           Hks).
Defined.

Lemma later_method_sees_earlier_options_witness :
  stored_options (example_world example_overlay) = Some example_overlay
  ∧ ∃ wa wb eff_b,
      invoke fit_zero Kmeans (example_world example_overlay) = Ok tt wa
      ∧ invoke fit_zero Dbscan wa = Ok tt wb
      ∧ stored_options wb = Some eff_b
      ∧ example_overlay !! "eps" = Some (PyFloat 1 (-1))
      ∧ eff_b !! "eps" = Some (PyFloat 5 (-1)).
Proof.
  split; [reflexivity|].
  set (w0 := example_world example_overlay).
  set (wa := after (invoke fit_zero Kmeans w0) w0).
  set (wb := after (invoke fit_zero Dbscan wa) wa).
  assert (invoke fit_zero Kmeans w0 = Ok tt wa) as Ha
    by (vm_compute; reflexivity).
  assert (invoke fit_zero Dbscan wa = Ok tt wb) as Hb
    by (vm_compute; reflexivity).
  destruct (later_method_sees_earlier_options fit_zero fit_zero Kmeans
              Dbscan w0 wa wb example_overlay eq_refl Ha Hb)
    as (eff_b & Hs & Hv).
  exists wa, wb, eff_b. split; [exact Ha|]. split; [exact Hb|].
  split; [exact Hs|]. split; [reflexivity|].
  exact (Hv "eps" (PyFloat 5 (-1)) eq_refl).
Defined.
